(** * MermaidPython: the Mermaid graph model and the source dependency diagrams

    A shallow embedding of [mermaid.py] (the [Node] and [Flowchart] classes)
    and of [diagrams.py] ([get_source_dependency_tree] and
    [build_source_dependency_chart]), followed by the properties of the
    two-stage pipeline  config -> dependency tree -> flowchart -> markup. *)

From Stdlib Require Import String Ascii List Arith Lia Bool ZArith DecimalString
  DecimalNat.
Import ListNotations.
Open Scope string_scope.
Set Warnings "-register-all".

(* ================================================================= *)
(** ** Python values, dictionaries and exceptions *)

Module Py.

(** The JSON/YAML-like values a sources config is made of.  A [PDict] is an
    insertion-ordered dictionary with string keys, kept as an association
    list; a genuine Python dict never holds a key twice ([wf_val]). *)
Inductive pyval : Type :=
| PNone
| PBool (b : bool)
| PInt (z : Z)
| PStr (s : string)
| PList (l : list pyval)
| PDict (d : list (string * pyval)).

Definition alist (V : Type) : Type := list (string * V).
Definition dict : Type := alist pyval.

(** The exceptions the two modules can raise.  [PyException] is the plain
    [Exception(msg)]; [RecursionError] is what an exhausted call depth
    (the fuel of the recursive functions) raises. *)
Inductive exn : Type :=
| KeyError (arg : string)
| AttributeError (msg : string)
| TypeError (msg : string)
| PyException (msg : string)
| StopIteration
| RecursionError.

Inductive result (A : Type) : Type :=
| Ok (a : A)
| Raise (e : exn).
Arguments Ok {A} a.
Arguments Raise {A} e.

Definition bind {A B : Type} (r : result A) (k : A -> result B) : result B :=
  match r with
  | Ok a => k a
  | Raise e => Raise e
  end.

(** Characters that a Rocq string literal cannot hold directly. *)
Definition nl : string := String (ascii_of_nat 10) EmptyString.
Definition dq : string := String (ascii_of_nat 34) EmptyString.

(** [str(n)] for an integer. *)
Definition str_of_nat (n : nat) : string := NilEmpty.string_of_uint (Nat.to_uint n).
Definition str_of_Z (z : Z) : string := NilZero.string_of_int (Z.to_int z).

(** [sep.join(parts)] *)
Fixpoint join (sep : string) (parts : list string) : string :=
  match parts with
  | [] => EmptyString
  | [p] => p
  | p :: rest => p ++ sep ++ join sep rest
  end.

(** [s[:n]] and [s[n:]] for [0 <= n]. *)
Fixpoint str_take (n : nat) (s : string) : string :=
  match n, s with
  | S n', String c r => String c (str_take n' r)
  | _, _ => EmptyString
  end.

Fixpoint str_drop (n : nat) (s : string) : string :=
  match n, s with
  | S n', String _ r => str_drop n' r
  | _, _ => s
  end.

(** [s[:-1]] : everything but the last character. *)
Fixpoint drop_last (s : string) : string :=
  match s with
  | EmptyString => EmptyString
  | String c r =>
      match r with
      | EmptyString => EmptyString
      | String _ _ => String c (drop_last r)
      end
  end.

Definition is_space (c : ascii) : bool := Ascii.eqb c " "%char.

Definition str_is_empty (s : string) : bool :=
  match s with
  | EmptyString => true
  | String _ _ => false
  end.

(** [s.lstrip(" ")], [s.rstrip(" ")] and [s.strip(" ")]. *)
Fixpoint lstrip (s : string) : string :=
  match s with
  | EmptyString => EmptyString
  | String c r => if is_space c then lstrip r else s
  end.

Fixpoint rstrip (s : string) : string :=
  match s with
  | EmptyString => EmptyString
  | String c r =>
      let r' := rstrip r in
      if is_space c && str_is_empty r' then EmptyString else String c r'
  end.

Definition strip (s : string) : string := rstrip (lstrip s).

(** Dictionary primitives, in insertion order. *)
Section Alist.
Context {V : Type}.

Fixpoint dict_get (d : alist V) (k : string) : option V :=
  match d with
  | [] => None
  | (k', v) :: rest => if String.eqb k' k then Some v else dict_get rest k
  end.

(** [d[k] = v]: an existing key keeps its position, a new one goes last. *)
Fixpoint dict_set (d : alist V) (k : string) (v : V) : alist V :=
  match d with
  | [] => [(k, v)]
  | (k', v') :: rest =>
      if String.eqb k' k then (k', v) :: rest else (k', v') :: dict_set rest k v
  end.

Definition dict_keys (d : alist V) : list string := map fst d.
Definition dict_values (d : alist V) : list V := map snd d.

(** [d.update(other)] *)
Definition dict_update (d other : alist V) : alist V :=
  fold_left (fun acc kv => dict_set acc (fst kv) (snd kv)) other d.

(** [k in d.keys()] *)
Definition dict_mem (d : alist V) (k : string) : bool :=
  match dict_get d k with
  | Some _ => true
  | None => false
  end.
End Alist.

(** [d.get(k)]: [None] when the key is absent. *)
Definition py_get (d : dict) (k : string) : pyval :=
  match dict_get d k with
  | Some v => v
  | None => PNone
  end.

Definition type_name (v : pyval) : string :=
  match v with
  | PNone => "NoneType"
  | PBool _ => "bool"
  | PInt _ => "int"
  | PStr _ => "str"
  | PList _ => "list"
  | PDict _ => "dict"
  end.

Definition no_attribute (v : pyval) (attr : string) : exn :=
  AttributeError ("'" ++ type_name v ++ "' object has no attribute '" ++ attr ++ "'").

(** [v.get(k)], [v.keys()] and [v.items()] on an arbitrary value: only a
    dict has these methods. *)
Definition meth_get (v : pyval) (k : string) : result pyval :=
  match v with
  | PDict d => Ok (py_get d k)
  | _ => Raise (no_attribute v "get")
  end.

Definition meth_keys (v : pyval) : result (list string) :=
  match v with
  | PDict d => Ok (dict_keys d)
  | _ => Raise (no_attribute v "keys")
  end.

Definition meth_items (v : pyval) : result dict :=
  match v with
  | PDict d => Ok d
  | _ => Raise (no_attribute v "items")
  end.

(** [k in keys] for a key view. *)
Definition str_in (k : string) (keys : list string) : bool :=
  existsb (String.eqb k) keys.

(** [v == "s"] for a string literal. *)
Definition eq_str (v : pyval) (s : string) : bool :=
  match v with
  | PStr s' => String.eqb s' s
  | _ => false
  end.

(** The representation invariant of Python dicts: no key occurs twice, at
    any depth. *)
Fixpoint wf_val (v : pyval) : Prop :=
  match v with
  | PList l =>
      (fix all (l : list pyval) : Prop :=
         match l with
         | [] => True
         | x :: r => wf_val x /\ all r
         end) l
  | PDict d =>
      NoDup (map fst d) /\
      (fix all (d : list (string * pyval)) : Prop :=
         match d with
         | [] => True
         | kv :: r => wf_val (snd kv) /\ all r
         end) d
  | _ => True
  end.

End Py.
Import Py.

Notation "x <- r ;; k" := (bind r (fun x => k))
  (at level 61, r at next level, right associativity).

(* ================================================================= *)
(** ** mermaid.py: Node and Flowchart *)

Module Mermaid.

(** A [Node] object.  [node_id] is [str(next(id_iter))], where [id_iter] is
    the class-wide counter [itertools.count(100)]; the counter is threaded
    explicitly by [new_node]. *)
Record Node : Type := mkNode {
  label : string;
  node_id : string;
  shape : string;
  style : option string
}.

Definition id_iter_start : nat := 100.

Definition default_shape : string := "[]".

(** [Node(label, shape, style)]: draws the next id from the counter. *)
Definition new_node (next_id : nat) (lbl shp : string) (sty : option string)
  : Node * nat :=
  (mkNode lbl (str_of_nat next_id) shp sty, S next_id).

(** [self.shape_map]; the Python literals are raw strings, so every
    backslash below is one character. *)
Definition shape_map : alist string :=
  [ ("rounded", "()");
    ("stadium", "([])");
    ("subroutine", "[[]]");
    ("cylinder", "[()]");
    ("circle", "(())");
    ("asymmetric", ">]");
    ("rhombus", "{}");
    ("hexagon", "{{}}");
    ("parallelogram", "[//]");
    ("parallelogram_alt", "[\\]");
    ("trapezoid", "[/\]");
    ("trapezoid_alt", "[\/]") ].

Definition with_shape (n : Node) (shp : string) : Node :=
  mkNode (label n) (node_id n) shp (style n).

Definition with_style (n : Node) (sty : option string) : Node :=
  mkNode (label n) (node_id n) (shape n) sty.

(** Python truthiness of the optional arguments of [set_style]. *)
Definition truthy_str (o : option string) : option string :=
  match o with
  | Some s => if str_is_empty s then None else Some s
  | None => None
  end.

Definition truthy_int (o : option Z) : option Z :=
  match o with
  | Some z => if Z.eqb z 0 then None else Some z
  | None => None
  end.

Definition truthy_list (o : option (list Z)) : option (list Z) :=
  match o with
  | Some [] => None
  | Some l => Some l
  | None => None
  end.

(** The four fragments [set_style] may append, each ending in a comma. *)
Definition fill_fragment (v : string) : string := " fill:" ++ v ++ ",".
Definition stroke_fragment (v : string) : string := " stroke:" ++ v ++ ",".
Definition stroke_width_fragment (w : Z) : string :=
  " stroke-width:" ++ str_of_Z w ++ "px,".
Definition stroke_dasharray_fragment (vals : list Z) : string :=
  " stroke-dasharray: " ++ join " " (map str_of_Z vals) ++ ",".

Definition set_style (n : Node) (fill stroke : option string)
  (stroke_width : option Z) (stroke_dasharray : option (list Z)) : Node :=
  let sty := "style " ++ node_id n in
  let sty := match truthy_str fill with
             | Some v => sty ++ fill_fragment v
             | None => sty
             end in
  let sty := match truthy_str stroke with
             | Some v => sty ++ stroke_fragment v
             | None => sty
             end in
  let sty := match truthy_int stroke_width with
             | Some w => sty ++ stroke_width_fragment w
             | None => sty
             end in
  let sty := match truthy_list stroke_dasharray with
             | Some vals => sty ++ stroke_dasharray_fragment vals
             | None => sty
             end in
  with_style n (Some (drop_last sty)).

Definition set_shape (n : Node) (shape_name : string) : result Node :=
  match dict_get shape_map shape_name with
  | Some shp => Ok (with_shape n shp)
  | None =>
      let option_list := join ", " (dict_keys shape_map) in
      Raise (KeyError (shape_name ++ " does not exist. Available options are: "
                         ++ option_list))
  end.

(** [shape_str in self.shape_map.values()] *)
Definition in_values (shape_str : string) : bool :=
  existsb (String.eqb shape_str) (dict_values shape_map).

Definition set_shape_raw (n : Node) (shape_str : string) : result Node :=
  if negb (in_values shape_str) then
    let options_list := join ", " (dict_values shape_map) in
    Raise (PyException ("Shape string " ++ shape_str
                          ++ " is not valid. Valid options are: " ++ options_list))
  else Ok (with_shape n shape_str).

(** [int(len(self.shape) / 2)] *)
Definition shape_midpoint (n : Node) : nat := Nat.div2 (String.length (shape n)).

Definition get_node_code (n : Node) : string :=
  nl ++ node_id n ++ str_take (shape_midpoint n) (shape n) ++ label n
     ++ str_drop (shape_midpoint n) (shape n).

(** A [Flowchart].  [nodes] holds the node objects as they are when the
    chart is read; [hrefs] and [clicks] are dicts keyed by the node object,
    which has identity hashing: the key is the node's id. *)
Record Flowchart : Type := mkFlowchart {
  orientation : string;
  theme : string;
  nodes : list Node;
  paths : list string;
  hrefs : alist string;
  clicks : alist string
}.

(** [Flowchart(orientation="TD", theme="default")] *)
Definition new_flowchart (orient thm : string) : Flowchart :=
  mkFlowchart orient thm [] [] [] [].

Definition empty_flowchart : Flowchart := new_flowchart "TD" "default".

Definition add_node (c : Flowchart) (n : Node) : Flowchart :=
  mkFlowchart (orientation c) (theme c) (nodes c ++ [n]) (paths c) (hrefs c) (clicks c).

Definition add_nodes (c : Flowchart) (node_list : list Node) : Flowchart :=
  mkFlowchart (orientation c) (theme c) (nodes c ++ node_list) (paths c)
              (hrefs c) (clicks c).

Definition solid : string := "-->".
Definition dashed : string := "-.->".

Definition path_code (start_node end_node : Node) (lbl path_style : string) : string :=
  let lbl := if str_is_empty lbl then lbl else "|" ++ lbl ++ "|" in
  nl ++ node_id start_node ++ " " ++ path_style ++ lbl ++ node_id end_node.

Definition add_path (c : Flowchart) (start_node end_node : Node)
  (lbl path_style : string) : Flowchart :=
  mkFlowchart (orientation c) (theme c) (nodes c)
              (paths c ++ [path_code start_node end_node lbl path_style])
              (hrefs c) (clicks c).

Definition add_href_click (c : Flowchart) (n : Node) (click_value tooltip : string)
  : Flowchart :=
  let tooltip := if String.eqb tooltip "_blank" then tooltip
                 else dq ++ tooltip ++ dq ++ " _blank" in
  mkFlowchart (orientation c) (theme c) (nodes c) (paths c)
    (dict_set (hrefs c) (node_id n)
       (nl ++ "click " ++ node_id n ++ " " ++ dq ++ click_value ++ dq ++ " " ++ tooltip))
    (clicks c).

Definition add_fn_click (c : Flowchart) (n : Node) (click_value tooltip : string)
  : Flowchart :=
  mkFlowchart (orientation c) (theme c) (nodes c) (paths c) (hrefs c)
    (dict_set (clicks c) (node_id n)
       (nl ++ "click " ++ node_id n ++ " call " ++ click_value ++ " "
           ++ dq ++ tooltip ++ dq ++ " ")).

(** The body of the node loop of [to_mermaid]. *)
Definition emit_node (mermaid : string) (n : Node) : string :=
  let mermaid := mermaid ++ strip (get_node_code n) in
  match style n with
  | Some sty => mermaid ++ nl ++ strip sty
  | None => mermaid
  end.

Definition emit_line (mermaid line : string) : string := mermaid ++ strip line.

Definition to_mermaid (c : Flowchart) : string :=
  let mermaid := "graph " ++ orientation c in
  let mermaid := fold_left emit_node (nodes c) mermaid in
  let mermaid := fold_left emit_line (paths c) mermaid in
  let mermaid := fold_left emit_line (dict_values (clicks c)) mermaid in
  let mermaid := fold_left emit_line (dict_values (hrefs c)) mermaid in
  mermaid.

End Mermaid.
Import Mermaid.

(* ================================================================= *)
(** ** diagrams.py: the tree resolver and the tree-to-graph builder *)

Module Diagrams.

Definition key_not_found (shown : string) : exn :=
  KeyError ("The source key " ++ shown ++ " was not found in the sources config.").

Definition invalid_source_config : exn := PyException "Invalid source config.".

Definition invalid_source_type : exn :=
  PyException
    "Invalid source type. Must be either: sql, file, union_dir, mapping, union or multi.".

Definition complex_sources : list string := ["mapping"; "union"; "multi"].

(** [source_type in complex_sources] *)
Definition is_complex (source_type : pyval) : bool :=
  existsb (eq_str source_type) complex_sources.

(** Lines 49-51: [sources_config.get(source_key)] and the [None] test.  The
    keys of the config are strings, so a hashable key of another type is
    never found; a list or a dict is unhashable.  On success the key is
    returned as the string it is. *)
Definition lookup_source (sources_config : dict) (source_key : pyval)
  : result (string * pyval) :=
  match source_key with
  | PList _ => Raise (TypeError "unhashable type: 'list'")
  | PDict _ => Raise (TypeError "unhashable type: 'dict'")
  | PNone => Raise (key_not_found "None")
  | PBool b => Raise (key_not_found (if b then "True" else "False"))
  | PInt z => Raise (key_not_found (str_of_Z z))
  | PStr s =>
      match py_get sources_config s with
      | PNone => Raise (key_not_found s)
      | source_config => Ok (s, source_config)
      end
  end.

(** [source_config["sources"]] on a dict. *)
Definition subscript (v : pyval) (k : string) : result pyval :=
  match v with
  | PDict d =>
      match dict_get d k with
      | Some x => Ok x
      | None => Raise (KeyError k)
      end
  | _ => Raise (TypeError ("'" ++ type_name v ++ "' object is not subscriptable"))
  end.

(** The [for union_source in sources] loop, over the recursive call. *)
Fixpoint union_loop (resolve : pyval -> result dict) (sources : list string)
  (union_nest : dict) : result dict :=
  match sources with
  | [] => Ok union_nest
  | union_source :: rest =>
      t <- resolve (PStr union_source) ;;
      union_loop resolve rest (dict_update union_nest t)
  end.

(** [get_source_dependency_tree]; [fuel] is the call depth still available. *)
Fixpoint get_source_dependency_tree (fuel : nat) (sources_config : dict)
  (source_key : pyval) : result dict :=
  match fuel with
  | 0 => Raise RecursionError
  | S fuel' =>
      found <- lookup_source sources_config source_key ;;
      let key := fst found in
      let source_config := snd found in
      source_type <- meth_get source_config "type" ;;
      if negb (is_complex source_type) then
        match source_type with
        | PNone =>
            connection <- meth_get source_config "connection" ;;
            config <- meth_get connection "config" ;;
            match config with
            | PNone => Raise invalid_source_config
            | _ =>
                keys <- meth_keys config ;;
                if str_in "file_type" keys
                then Ok [(key, PStr "file")]
                else Ok [(key, PStr "sql")]
            end
        | _ =>
            if eq_str source_type "union_directory"
            then Ok [(key, PStr "union_directory")]
            else Raise invalid_source_type
        end
      else if eq_str source_type "mapping" then
        left_source <- meth_get source_config "left" ;;
        right_source <- meth_get source_config "right" ;;
        left_tree <- get_source_dependency_tree fuel' sources_config left_source ;;
        right_tree <- get_source_dependency_tree fuel' sources_config right_source ;;
        let map_nest := [("left", PDict left_tree); ("right", PDict right_tree)] in
        Ok [(key, PDict [("mapping", PDict map_nest)])]
      else if eq_str source_type "union" then
        srcs <- subscript source_config "sources" ;;
        sources <- meth_keys srcs ;;
        union_nest <- union_loop (get_source_dependency_tree fuel' sources_config)
                        sources [] ;;
        Ok [(key, PDict [("union", PDict union_nest)])]
      else
        original <- meth_get source_config "original" ;;
        original_nest <- get_source_dependency_tree fuel' sources_config original ;;
        Ok [(key, PDict [("multi", PDict original_nest)])]
  end.

(** *** build_source_dependency_chart *)

Definition leaf_node_map : alist string :=
  [("file", "[]"); ("sql", "[()]"); ("union_directory", "[[]]")].

Definition combined_shape : string := "{{}}".

Definition leaf_type_error : exn :=
  PyException
    "Leaf level sources should have one of the following types: file, sql & union_directory".

Definition nest_type_error : exn :=
  TypeError
    "Invalid simple source type or complex source without information on its children?".

Definition dependency_dict_error : exn :=
  PyException
    "Dependency dict error. Complex sources should have type: mapping, union or multi.".

(** The state the builder mutates: the class-wide id counter and the chart. *)
Definition build_state : Type := (nat * Flowchart)%type.

(** [chart.add_path(source_node, parent_source)] when a parent was given. *)
Definition link_to_parent (chart : Flowchart) (source_node : Node)
  (parent_source : option Node) (path_style : string) : Flowchart :=
  match parent_source with
  | Some parent => add_path chart source_node parent EmptyString path_style
  | None => chart
  end.

(** The [for source_key, source_nest in union_nest.items()] loop. *)
Fixpoint union_items_loop (build : build_state -> pyval -> result build_state)
  (items : dict) (st : build_state) : result build_state :=
  match items with
  | [] => Ok st
  | (source_key, source_nest) :: rest =>
      let source_dict := dict_set [] source_key source_nest in
      st' <- build st (PDict source_dict) ;;
      union_items_loop build rest st'
  end.

(** [build_source_dependency_chart].  An exception leaves the caller without
    a chart, so a failing run returns the exception alone. *)
Fixpoint build_source_dependency_chart (fuel : nat) (st : build_state)
  (dependency_tree : pyval) (parent_source : option Node) (map_right : bool)
  : result build_state :=
  match fuel with
  | 0 => Raise RecursionError
  | S fuel' =>
      let next_id := fst st in
      let chart := snd st in
      keys <- meth_keys dependency_tree ;;
      match keys with
      | [] => Raise StopIteration
      | source :: _ =>
          nest <- meth_get dependency_tree source ;;
          match nest with
          | PStr tag =>
              match dict_get leaf_node_map tag with
              | None => Raise leaf_type_error
              | Some shp =>
                  let created := new_node next_id source shp None in
                  let source_node := fst created in
                  let chart := add_node chart source_node in
                  let chart :=
                    if map_right
                    then link_to_parent chart source_node parent_source dashed
                    else link_to_parent chart source_node parent_source solid in
                  Ok (snd created, chart)
              end
          | PDict nest_d =>
              let created := new_node next_id source combined_shape None in
              let source_node := fst created in
              let chart := add_node chart source_node in
              let chart := link_to_parent chart source_node parent_source solid in
              let st := (snd created, chart) in
              if dict_mem nest_d "mapping" then
                let mapping_tree := py_get nest_d "mapping" in
                left_tree <- meth_get mapping_tree "left" ;;
                st <- build_source_dependency_chart fuel' st left_tree
                        (Some source_node) false ;;
                right_tree <- meth_get mapping_tree "right" ;;
                build_source_dependency_chart fuel' st right_tree
                  (Some source_node) true
              else if dict_mem nest_d "union" then
                let union_nest := py_get nest_d "union" in
                items <- meth_items union_nest ;;
                union_items_loop
                  (fun st t =>
                     build_source_dependency_chart fuel' st t (Some source_node) false)
                  items st
              else if dict_mem nest_d "multi" then
                let multi_nest := py_get nest_d "multi" in
                build_source_dependency_chart fuel' st multi_nest
                  (Some source_node) false
              else Raise dependency_dict_error
          | _ => Raise nest_type_error
          end
      end
  end.

(** [get_source_mermaid] *)
Definition get_source_mermaid (fuel : nat) (next_id : nat) (sources_config : dict)
  (source_key : pyval) : result string :=
  dependency_tree <- get_source_dependency_tree fuel sources_config source_key ;;
  st <- build_source_dependency_chart fuel (next_id, empty_flowchart)
          (PDict dependency_tree) None false ;;
  Ok (to_mermaid (snd st)).

(** [get_source_mermaid_key]: the two legend charts.  The nodes are
    created in the order of the source, each drawing the next id. *)
Definition get_source_mermaid_key_charts (next_id : nat)
  : Flowchart * Flowchart * nat :=
  (* Nodes *)
  let node_chart := empty_flowchart in
  let c := new_node next_id "File source" "[]" None in
  let file_node := fst c in
  let c := new_node (snd c) "SQL source" "[()]" None in
  let sql_node := fst c in
  let c := new_node (snd c) "Union of a directory" "[[]]" None in
  let union_dir_node := fst c in
  let c := new_node (snd c) "Combined source" "{{}}" None in
  let combined_node := fst c in
  let node_chart :=
    add_nodes node_chart [file_node; sql_node; union_dir_node; combined_node] in
  (* Paths: mapping *)
  let path_chart := empty_flowchart in
  let c := new_node (snd c) "Mapped source" "{{}}" None in
  let map_source := fst c in
  let c := new_node (snd c) "File source left" "[]" None in
  let file_left := fst c in
  let c := new_node (snd c) "SQL source right" "[()]" None in
  let sql_right := fst c in
  let path_chart := add_nodes path_chart [map_source; file_left; sql_right] in
  let path_chart := add_path path_chart file_left map_source EmptyString "-->" in
  let path_chart := add_path path_chart sql_right map_source EmptyString "-.->" in
  (* Paths: union *)
  let c := new_node (snd c) "Unioned source" "{{}}" None in
  let union_source := fst c in
  let c := new_node (snd c) "Union directory" "[[]]" None in
  let ud_union := fst c in
  let c := new_node (snd c) "SQL" "[()]" None in
  let sql_union := fst c in
  let path_chart := add_nodes path_chart [union_source; ud_union; sql_union] in
  let path_chart := add_path path_chart ud_union union_source EmptyString "-->" in
  let path_chart := add_path path_chart sql_union union_source EmptyString "-->" in
  (* Paths: multi *)
  let c := new_node (snd c) "Multi source" "{{}}" None in
  let multi_source := fst c in
  let c := new_node (snd c) "Original SQL source" "[()]" None in
  let original := fst c in
  let path_chart := add_nodes path_chart [multi_source; original] in
  let path_chart := add_path path_chart original multi_source EmptyString "-->" in
  (node_chart, path_chart, snd c).

Definition get_source_mermaid_key (next_id : nat) : (string * string) * nat :=
  let charts := get_source_mermaid_key_charts next_id in
  let node_mermaid := to_mermaid (fst (fst charts)) in
  let path_mermaid := to_mermaid (snd (fst charts)) in
  ((node_mermaid, path_mermaid), snd charts).

End Diagrams.
Import Diagrams.

(* ================================================================= *)
(** ** Well-formed dependency trees

    The dependency tree of the module docstring as a tagged variant, with
    its encoding as the nested dicts that [get_source_dependency_tree]
    returns and [build_source_dependency_chart] reads. *)

Inductive leaf_kind : Type := File | Sql | UnionDirectory.

Definition leaf_tag (k : leaf_kind) : string :=
  match k with
  | File => "file"
  | Sql => "sql"
  | UnionDirectory => "union_directory"
  end.

Definition leaf_shape (k : leaf_kind) : string :=
  match k with
  | File => "[]"
  | Sql => "[()]"
  | UnionDirectory => "[[]]"
  end.

Inductive dtree : Type :=
| DLeaf (key : string) (kind : leaf_kind)
| DMapping (key : string) (left_tree right_tree : dtree)
| DUnion (key : string) (children : list dtree)
| DMulti (key : string) (original : dtree).

Definition dkey (t : dtree) : string :=
  match t with
  | DLeaf k _ => k
  | DMapping k _ _ => k
  | DUnion k _ => k
  | DMulti k _ => k
  end.

Definition is_leaf (t : dtree) : bool :=
  match t with
  | DLeaf _ _ => true
  | _ => false
  end.

(** The value stored under a tree's root key. *)
Fixpoint encode_nest (t : dtree) : pyval :=
  match t with
  | DLeaf _ kind => PStr (leaf_tag kind)
  | DMapping _ l r =>
      PDict [("mapping",
              PDict [("left", PDict [(dkey l, encode_nest l)]);
                     ("right", PDict [(dkey r, encode_nest r)])])]
  | DUnion _ cs =>
      PDict [("union", PDict (map (fun c => (dkey c, encode_nest c)) cs))]
  | DMulti _ o =>
      PDict [("multi", PDict [(dkey o, encode_nest o)])]
  end.

Definition encode_entry (t : dtree) : string * pyval := (dkey t, encode_nest t).

Definition encode (t : dtree) : dict := [encode_entry t].

(** The number of source-key entries of a tree: one per tree node. *)
Fixpoint entries (t : dtree) : nat :=
  match t with
  | DLeaf _ _ => 1
  | DMapping _ l r => S (entries l + entries r)
  | DUnion _ cs => S (list_sum (map entries cs))
  | DMulti _ o => S (entries o)
  end.

Fixpoint height (t : dtree) : nat :=
  match t with
  | DLeaf _ _ => 1
  | DMapping _ l r => S (Nat.max (height l) (height r))
  | DUnion _ cs => S (list_max (map height cs))
  | DMulti _ o => S (height o)
  end.

(* ----------------------------------------------------------------- *)
(** *** The reference graph of a configuration

    How a source definition is classified (section 3 of the data model):
    a leaf whose kind is inferred from the connection config or declared as
    [union_directory], or one of the three composites with its child keys.
    A definition the resolver rejects has no class. *)

Inductive source_class : Type :=
| CLeaf (kind : leaf_kind)
| CMapping (left_key right_key : string)
| CUnion (child_keys : list string)
| CMulti (original_key : string).

Definition class_children (c : source_class) : list string :=
  match c with
  | CLeaf _ => []
  | CMapping l r => [l; r]
  | CUnion cs => cs
  | CMulti o => [o]
  end.

Definition classify_undeclared (def : dict) : option source_class :=
  match dict_get def "connection" with
  | Some (PDict connection) =>
      match dict_get connection "config" with
      | Some (PDict config) =>
          Some (CLeaf (if dict_mem config "file_type" then File else Sql))
      | _ => None
      end
  | _ => None
  end.

Definition classify_declared (def : dict) (ty : string) : option source_class :=
  if String.eqb ty "union_directory" then Some (CLeaf UnionDirectory)
  else if String.eqb ty "mapping" then
    match dict_get def "left", dict_get def "right" with
    | Some (PStr l), Some (PStr r) => Some (CMapping l r)
    | _, _ => None
    end
  else if String.eqb ty "union" then
    match dict_get def "sources" with
    | Some (PDict sources) => Some (CUnion (dict_keys sources))
    | _ => None
    end
  else if String.eqb ty "multi" then
    match dict_get def "original" with
    | Some (PStr o) => Some (CMulti o)
    | _ => None
    end
  else None.

Definition classify (cfg : dict) (key : string) : option source_class :=
  match dict_get cfg key with
  | Some (PDict def) =>
      match dict_get def "type" with
      | None | Some PNone => classify_undeclared def
      | Some (PStr ty) => classify_declared def ty
      | Some _ => None
      end
  | _ => None
  end.

(** [visits cfg k n]: every key reachable from [k] has a class, the
    references below [k] are well founded (no cycle), and resolving [k]
    visits [n] keys, a key being counted once for each reference path that
    leads to it. *)
Inductive visits (cfg : dict) : string -> nat -> Prop :=
| visits_key (k : string) (c : source_class) (n : nat) :
    classify cfg k = Some c ->
    visits_all cfg (class_children c) n ->
    visits cfg k (S n)
with visits_all (cfg : dict) : list string -> nat -> Prop :=
| visits_nil : visits_all cfg [] 0
| visits_cons (k : string) (ks : list string) (n m : nat) :
    visits cfg k n ->
    visits_all cfg ks m ->
    visits_all cfg (k :: ks) (n + m).

Scheme visits_mut := Minimality for visits Sort Prop
  with visits_all_mut := Minimality for visits_all Sort Prop.

(** The resolver returns the encoding of [t] for the key [k]; it does so
    with [n] entries at every call depth from [n] on. *)
Definition resolves_to (cfg : dict) (fuel : nat) (k : string) (t : dtree) : Prop :=
  get_source_dependency_tree fuel cfg (PStr k) = Ok (encode t).

Definition resolved (cfg : dict) (k : string) (n : nat) : Prop :=
  exists t, dkey t = k /\ entries t = n /\
            forall fuel, n <= fuel -> resolves_to cfg fuel k t.

Definition all_resolved (cfg : dict) (ks : list string) (n : nat) : Prop :=
  exists ts, map dkey ts = ks /\ list_sum (map entries ts) = n /\
             forall fuel, n <= fuel -> Forall2 (resolves_to cfg fuel) ks ts.

(** What a successful call tells: the result is the encoding of a typed
    tree rooted at the key, no deeper than the call depth that was
    available, and the key's references are well founded. *)
Definition sound_result (cfg : dict) (fuel : nat) (key : pyval) (t : dict) : Prop :=
  exists dt : dtree,
    t = encode dt /\ key = PStr (dkey dt) /\ height dt <= fuel
    /\ visits cfg (dkey dt) (entries dt).

(* ----------------------------------------------------------------- *)
(** *** The edges a tree calls for

    Every tree node but the root has one edge, to its parent.  An edge is
    described by the ids of its two nodes, by whether it starts at a leaf,
    and by the branch of the parent it hangs from. *)

Inductive branch : Type := Root | MappingLeft | MappingRight | UnionChild | MultiChild.

Record edge : Type := mkEdge {
  edge_from : string;
  edge_to : string;
  from_leaf : bool;
  via : branch
}.

Definition is_mapping_right (b : branch) : bool :=
  match b with
  | MappingRight => true
  | _ => false
  end.

(** The styling rule: dashed exactly for a leaf on the right of a mapping. *)
Definition edge_style (e : edge) : string :=
  if from_leaf e && is_mapping_right (via e) then dashed else solid.

Definition edge_code (e : edge) : string :=
  nl ++ edge_from e ++ " " ++ edge_style e ++ edge_to e.

Definition tree_node (t : dtree) (id : nat) : Node :=
  match t with
  | DLeaf k kind => mkNode k (str_of_nat id) (leaf_shape kind) None
  | _ => mkNode (dkey t) (str_of_nat id) combined_shape None
  end.

Definition own_edge (t : dtree) (id : nat) (parent : option Node) (b : branch)
  : list edge :=
  match parent with
  | Some p => [mkEdge (str_of_nat id) (node_id p) (is_leaf t) b]
  | None => []
  end.

(** The lists a forest contributes, each tree taking its ids after those
    of the trees before it. *)
Fixpoint forest {A : Type} (per_tree : dtree -> nat -> list A)
  (ts : list dtree) (id : nat) : list A :=
  match ts with
  | [] => []
  | t :: rest => (per_tree t id ++ forest per_tree rest (entries t + id))%list
  end.

(** Nodes and edges of a tree in pre-order, the root taking id [id]. *)
Fixpoint tree_nodes (t : dtree) (id : nat) : list Node :=
  tree_node t id ::
  match t with
  | DLeaf _ _ => []
  | DMapping _ l r => (tree_nodes l (S id) ++ tree_nodes r (entries l + S id))%list
  | DUnion _ cs => forest tree_nodes cs (S id)
  | DMulti _ o => tree_nodes o (S id)
  end.

Fixpoint tree_edges (t : dtree) (id : nat) (parent : option Node) (b : branch)
  : list edge :=
  (own_edge t id parent b ++
  match t with
  | DLeaf _ _ => []
  | DMapping _ l r =>
      tree_edges l (S id) (Some (tree_node t id)) MappingLeft
      ++ tree_edges r (entries l + S id) (Some (tree_node t id)) MappingRight
  | DUnion _ cs =>
      forest (fun c id' => tree_edges c id' (Some (tree_node t id)) UnionChild)
             cs (S id)
  | DMulti _ o => tree_edges o (S id) (Some (tree_node t id)) MultiChild
  end)%list.

Definition node_ids (ns : list Node) : list string := map node_id ns.

(** The chart after a tree was added to it. *)
Definition chart_with (chart : Flowchart) (new_nodes : list Node)
  (new_edges : list edge) : Flowchart :=
  mkFlowchart (orientation chart) (theme chart) (nodes chart ++ new_nodes)
              (paths chart ++ map edge_code new_edges) (hrefs chart) (clicks chart).

(* ----------------------------------------------------------------- *)
(** *** The layout of the markup *)

(** The lines a node contributes: its definition, then its style if set. *)
Definition node_block (n : Node) : string :=
  strip (get_node_code n) ++
  match style n with
  | Some sty => nl ++ strip sty
  | None => EmptyString
  end.

(** The node-definition line as written, before trailing blanks are cut. *)
Definition node_line (n : Node) : string :=
  nl ++ node_id n ++ str_take (Nat.div2 (String.length (shape n))) (shape n)
     ++ label n ++ str_drop (Nat.div2 (String.length (shape n))) (shape n).

(* ----------------------------------------------------------------- *)
(** *** Scenario data *)

(** The mapping scenario: [m] maps a file source [l] onto an sql source [r]. *)
Definition scenario_config : dict :=
  [ ("m", PDict [("type", PStr "mapping"); ("left", PStr "l"); ("right", PStr "r")]);
    ("l", PDict [("connection", PDict [("config", PDict [("file_type", PStr "csv")])])]);
    ("r", PDict [("connection", PDict [("config", PDict [])])]) ].

Definition scenario_tree : dict :=
  [ ("m", PDict [("mapping",
                  PDict [("left", PDict [("l", PStr "file")]);
                         ("right", PDict [("r", PStr "sql")])])]) ].

(** The scenario tree as a typed tree; [encode] gives [scenario_tree]. *)
Definition scenario_dtree : dtree :=
  DMapping "m" (DLeaf "l" File) (DLeaf "r" Sql).

(** A definition without a declared type and without a [connection]. *)
Definition bare_config : dict := [("a", PDict [])].

(** A definition whose [connection] lacks the nested [config]. *)
Definition connection_only_config : dict := [("a", PDict [("connection", PDict [])])].

(** A definition that declares the leaf kind [file] outright. *)
Definition declared_file_config : dict := [("a", PDict [("type", PStr "file")])].

(** A mapping that omits [right] and whose [left] names an unknown key. *)
Definition dangling_left_config : dict :=
  [("m", PDict [("type", PStr "mapping"); ("left", PStr "x")])].

(** A mapping that omits [right] and whose [left] is a file source. *)
Definition right_omitted_config : dict :=
  [ ("m", PDict [("type", PStr "mapping"); ("left", PStr "l")]);
    ("l", PDict [("connection", PDict [("config", PDict [("file_type", PStr "csv")])])]) ].

Definition left_omitted_config : dict :=
  [("m", PDict [("type", PStr "mapping"); ("right", PStr "r")])].

Definition original_omitted_config : dict := [("w", PDict [("type", PStr "multi")])].

(** A union [u] of two unions [a] and [b] that both hold the file [c]. *)
Definition shared_child_config : dict :=
  [ ("u", PDict [("type", PStr "union");
                 ("sources", PDict [("a", PNone); ("b", PNone)])]);
    ("a", PDict [("type", PStr "union"); ("sources", PDict [("c", PNone)])]);
    ("b", PDict [("type", PStr "union"); ("sources", PDict [("c", PNone)])]);
    ("c", PDict [("connection", PDict [("config", PDict [("file_type", PStr "csv")])])]) ].

(** A multi source that wraps itself. *)
Definition self_wrapped_config : dict :=
  [("w", PDict [("type", PStr "multi"); ("original", PStr "w")])].

(** A union that has no [sources] field. *)
Definition sourceless_union_config : dict := [("u", PDict [("type", PStr "union")])].

(** The three composites the legend draws, as dependency trees. *)
Definition legend_mapping : dtree :=
  DMapping "Mapped source" (DLeaf "File source left" File)
           (DLeaf "SQL source right" Sql).

Definition legend_union : dtree :=
  DUnion "Unioned source" [DLeaf "Union directory" UnionDirectory; DLeaf "SQL" Sql].

Definition legend_multi : dtree :=
  DMulti "Multi source" (DLeaf "Original SQL source" Sql).

(** Running the builder on a list of trees, one after the other. *)
Fixpoint build_all (fuel : nat) (st : build_state) (ts : list dtree)
  : result build_state :=
  match ts with
  | [] => Ok st
  | t :: rest =>
      st' <- build_source_dependency_chart fuel st (PDict (encode t)) None false ;;
      build_all fuel st' rest
  end.

(** A string that ends in a comma. *)
Definition comma_ended (s : string) : Prop := exists body, s = body ++ ",".

(** A source whose connection config has a [file_type] key set to null. *)
Definition null_file_type_config : dict :=
  [("a", PDict [("connection", PDict [("config", PDict [("file_type", PNone)])])])].

(** The first node a fresh interpreter creates. *)
Definition first_node : Node := fst (new_node id_iter_start "a" default_shape None).

(** The ways a composite definition can lack a child reference and still
    reach the recursive call for it: the resolver gets to the missing child
    of a mapping's right side only after the left side was resolved. *)
Inductive lacks_child (resolve : pyval -> result dict) (def : dict) : Prop :=
| mapping_without_left :
    dict_get def "type" = Some (PStr "mapping") ->
    dict_get def "left" = None ->
    lacks_child resolve def
| mapping_without_right (left_tree : dict) :
    dict_get def "type" = Some (PStr "mapping") ->
    dict_get def "right" = None ->
    resolve (py_get def "left") = Ok left_tree ->
    lacks_child resolve def
| multi_without_original :
    dict_get def "type" = Some (PStr "multi") ->
    dict_get def "original" = None ->
    lacks_child resolve def.

(** The statement that a composite lacking any child reference always
    ends in the [KeyError] about the key [None]. *)
Definition omitted_child_reports_None : Prop :=
  forall (fuel : nat) (cfg : dict) (key : string) (def : dict),
    dict_get cfg key = Some (PDict def) ->
    (dict_get def "type" = Some (PStr "mapping") /\
     (dict_get def "left" = None \/ dict_get def "right" = None))
    \/ (dict_get def "type" = Some (PStr "multi") /\ dict_get def "original" = None) ->
    get_source_dependency_tree (2 + fuel) cfg (PStr key)
    = Raise (key_not_found "None").

Definition str_concat (parts : list string) : string :=
  fold_right append EmptyString parts.

(** The markup in one piece: header, node blocks, edge lines, callback
    clicks, href clicks, every line with its outer blanks cut. *)
Definition markup_layout (c : Flowchart) : string :=
  "graph " ++ orientation c
  ++ str_concat (map node_block (nodes c))
  ++ str_concat (map strip (paths c))
  ++ str_concat (map strip (dict_values (clicks c)))
  ++ str_concat (map strip (dict_values (hrefs c))).

(** The same layout with every line taken exactly as it was recorded. *)
Definition recorded_block (n : Node) : string :=
  node_line n ++
  match style n with
  | Some sty => nl ++ sty
  | None => EmptyString
  end.

Definition recorded_layout (c : Flowchart) : string :=
  "graph " ++ orientation c
  ++ str_concat (map recorded_block (nodes c))
  ++ str_concat (paths c)
  ++ str_concat (dict_values (clicks c))
  ++ str_concat (dict_values (hrefs c)).

(** A chart with one node, made by [Node("a ", "")]: no delimiters, and a
    label that ends in a blank. *)
Definition bare_label_chart : Flowchart :=
  add_node empty_flowchart (fst (new_node id_iter_start "a " EmptyString None)).

(** The shapes the module itself hands out: the default and the table's. *)
Definition known_shapes : list string := default_shape :: dict_values shape_map.

(** The markup of a single tree: header, node lines, edge lines. *)
Definition tree_markup_text (t : dtree) (id : nat) : string :=
  "graph TD" ++ str_concat (map node_line (tree_nodes t id))
             ++ str_concat (map edge_code (tree_edges t id None Root)).

(** The fragments [set_style] appends for its truthy arguments. *)
Definition opt_fragment {A : Type} (frag : A -> string) (o : option A) : string :=
  match o with
  | Some v => frag v
  | None => EmptyString
  end.

Definition style_fragments (fill stroke : option string)
  (stroke_width : option Z) (stroke_dasharray : option (list Z)) : string :=
  opt_fragment fill_fragment (truthy_str fill)
  ++ opt_fragment stroke_fragment (truthy_str stroke)
  ++ opt_fragment stroke_width_fragment (truthy_int stroke_width)
  ++ opt_fragment stroke_dasharray_fragment (truthy_list stroke_dasharray).

(* ================================================================= *)
(** ** Properties of the resolver on single definitions *)

Lemma py_get_some (d : dict) (k : string) (v : pyval) :
  dict_get d k = Some v -> py_get d k = v.
Proof. unfold py_get; intros ->; reflexivity. Qed.

Lemma py_get_none (d : dict) (k : string) :
  dict_get d k = None -> py_get d k = PNone.
Proof. unfold py_get; intros ->; reflexivity. Qed.

(** C3. A key that is absent from the configuration makes
    [get_source_dependency_tree] raise the [KeyError] naming that key,
    whatever else the configuration holds: the lookup is the first thing
    the function does. *)
Theorem absent_key_raises_KeyError (cfg : dict) (key : string) (fuel : nat) :
  dict_get cfg key = None ->
  get_source_dependency_tree (S fuel) cfg (PStr key) = Raise (key_not_found key).
Proof.
  intros Habsent. simpl. rewrite (py_get_none _ _ Habsent). reflexivity.
Qed.

Lemma absent_key_raises_KeyError_witness :
  get_source_dependency_tree 1 scenario_config (PStr "missing_key")
  = Raise (key_not_found "missing_key").
Proof. apply (absent_key_raises_KeyError scenario_config "missing_key" 0). reflexivity. Defined.

(** C1. The mapping scenario: the resolver returns the documented tree, and
    the builder turns it, on a fresh chart, into three nodes [m], [l], [r]
    and two edges, [l -> m] solid and [r -> m] dashed. *)
Theorem mapping_scenario (fuel next_id : nat) :
  get_source_dependency_tree (2 + fuel) scenario_config (PStr "m") = Ok scenario_tree
  /\ exists (m l r : Node) (chart : Flowchart),
       build_source_dependency_chart (2 + fuel) (next_id, empty_flowchart)
         (PDict scenario_tree) None false = Ok (3 + next_id, chart)
       /\ nodes chart = [m; l; r]
       /\ (label m, label l, label r) = ("m", "l", "r")
       /\ (shape m, shape l, shape r) = ("{{}}", "[]", "[()]")
       /\ paths chart = [ path_code l m EmptyString "-->";
                          path_code r m EmptyString "-.->" ]
       /\ length (nodes chart) = 3
       /\ length (paths chart) = 2.
Proof.
  split; [reflexivity|].
  eexists _, _, _, _. cbn.
  repeat split; reflexivity.
Qed.

(** The markup of the mapping scenario in a fresh interpreter. *)
Example mapping_scenario_markup :
  get_source_mermaid 2 id_iter_start scenario_config (PStr "m")
  = Ok ("graph TD" ++ nl ++ "100{{m}}" ++ nl ++ "101[l]" ++ nl ++ "102[(r)]"
          ++ nl ++ "101 -->100" ++ nl ++ "102 -.->100").
Proof. vm_compute. reflexivity. Qed.

(** C10. On an empty dependency tree the builder raises [StopIteration],
    from taking the first key, before any of its own checks. *)
Theorem empty_tree_raises_StopIteration
  (fuel : nat) (st : build_state) (parent : option Node) (map_right : bool) :
  build_source_dependency_chart (S fuel) st (PDict []) parent map_right
  = Raise StopIteration.
Proof. reflexivity. Qed.

(** C4. A definition with no declared type and no [connection] field does
    not reach the [Invalid source config.] exception: reading [config] off
    the missing connection raises [AttributeError]. *)
Theorem missing_connection_raises_AttributeError (fuel : nat) :
  get_source_dependency_tree (S fuel) bare_config (PStr "a")
  = Raise (AttributeError "'NoneType' object has no attribute 'get'")
  /\ get_source_dependency_tree (S fuel) bare_config (PStr "a")
     <> Raise invalid_source_config.
Proof. split; [reflexivity | discriminate]. Qed.

(** The sibling case of C4 that works: a [connection] dict without [config]. *)
Lemma missing_nested_config_raises_ConfigError
  (cfg : dict) (key : string) (def connection : dict) (fuel : nat) :
  dict_get cfg key = Some (PDict def) ->
  dict_get def "type" = None ->
  dict_get def "connection" = Some (PDict connection) ->
  dict_get connection "config" = None ->
  get_source_dependency_tree (S fuel) cfg (PStr key) = Raise invalid_source_config.
Proof.
  intros Hdef Hty Hconn Hcfg. simpl.
  rewrite (py_get_some _ _ _ Hdef). simpl.
  rewrite (py_get_none _ _ Hty). simpl.
  rewrite (py_get_some _ _ _ Hconn). simpl.
  rewrite (py_get_none _ _ Hcfg). reflexivity.
Qed.

Lemma missing_connection_general
  (cfg : dict) (key : string) (def : dict) (fuel : nat) :
  dict_get cfg key = Some (PDict def) ->
  dict_get def "type" = None ->
  dict_get def "connection" = None ->
  get_source_dependency_tree (S fuel) cfg (PStr key)
  = Raise (no_attribute PNone "get").
Proof.
  intros Hdef Hty Hconn. simpl.
  rewrite (py_get_some _ _ _ Hdef). simpl.
  rewrite (py_get_none _ _ Hty). simpl.
  rewrite (py_get_none _ _ Hconn). reflexivity.
Qed.

(** A declared type is accepted only when it is [union_directory] or a
    composite: a definition that declares [file] is rejected, so the leaf
    kinds [file] and [sql] are always inferred ones. *)
Example declared_file_type_is_rejected (fuel : nat) :
  get_source_dependency_tree (S fuel) declared_file_config (PStr "a")
  = Raise invalid_source_type
  /\ classify declared_file_config "a" = None.
Proof. split; reflexivity. Qed.

(** C9 as stated fails: a mapping that omits [right] but whose [left] names
    an unknown key ends in the [KeyError] about that key, and the resolver
    never recurses with [None]. *)
Lemma dangling_left_hides_omitted_right : ~ omitted_child_reports_None.
Proof.
  intros Hclaim.
  specialize (Hclaim 0 dangling_left_config "m"
                [("type", PStr "mapping"); ("left", PStr "x")] eq_refl).
  assert (Hrun : get_source_dependency_tree 2 dangling_left_config (PStr "m")
                 = Raise (key_not_found "x")) by reflexivity.
  simpl plus in Hclaim. rewrite Hrun in Hclaim.
  assert (Hne : Raise (A := dict) (key_not_found "x") <> Raise (key_not_found "None"))
    by (vm_compute; discriminate).
  apply Hne, Hclaim. left. split; [reflexivity | right; reflexivity].
Qed.

(** C9, amended. A mapping that omits [left], a mapping that omits [right]
    and whose left child resolves, and a multi that omits [original] raise
    no exception about the malformed definition: the resolver recurses with
    [None] as the child key and fails with the [KeyError] saying that the
    source key [None] was not found. *)
Theorem omitted_child_raises_KeyError_None
  (cfg : dict) (key : string) (def : dict) (fuel : nat) :
  dict_get cfg key = Some (PDict def) ->
  lacks_child (get_source_dependency_tree (S fuel) cfg) def ->
  get_source_dependency_tree (S fuel) cfg PNone = Raise (key_not_found "None")
  /\ get_source_dependency_tree (S (S fuel)) cfg (PStr key)
     = Raise (key_not_found "None").
Proof.
  intros Hdef Hlack. split; [reflexivity|].
  cbn [get_source_dependency_tree]. cbn [lookup_source].
  rewrite (py_get_some _ _ _ Hdef). cbn [bind fst snd meth_get].
  destruct Hlack as [Hty Hleft | left_tree Hty Hright Hres | Hty Horig];
    rewrite (py_get_some _ _ _ Hty); cbn.
  - rewrite (py_get_none _ _ Hleft). reflexivity.
  - cbn in Hres. rewrite Hres. rewrite (py_get_none _ _ Hright). reflexivity.
  - rewrite (py_get_none _ _ Horig). reflexivity.
Qed.

Lemma omitted_child_raises_KeyError_None_witness :
  get_source_dependency_tree 2 left_omitted_config (PStr "m")
    = Raise (key_not_found "None")
  /\ get_source_dependency_tree 2 right_omitted_config (PStr "m")
    = Raise (key_not_found "None")
  /\ get_source_dependency_tree 2 original_omitted_config (PStr "w")
    = Raise (key_not_found "None").
Proof.
  split; [|split].
  - apply (omitted_child_raises_KeyError_None left_omitted_config "m"
             [("type", PStr "mapping"); ("right", PStr "r")] 0 eq_refl).
    apply mapping_without_left; reflexivity.
  - apply (omitted_child_raises_KeyError_None right_omitted_config "m"
             [("type", PStr "mapping"); ("left", PStr "l")] 0 eq_refl).
    apply (mapping_without_right _ _ [("l", PStr "file")]); reflexivity.
  - apply (omitted_child_raises_KeyError_None original_omitted_config "w"
             [("type", PStr "multi")] 0 eq_refl).
    apply multi_without_original; reflexivity.
Defined.

(* ================================================================= *)
(** ** Properties of Node *)

(** C7. Called with no argument, [set_style] cuts the last character of the
    node id instead of a trailing comma; a stroke width of [0] and an empty
    fill, though not [None], add no fragment. *)
Theorem set_style_trims_the_node_id :
  node_id first_node = "100"
  /\ style (set_style first_node None None None None) = Some "style 10"
  /\ style (set_style first_node None None (Some 0%Z) None) = Some "style 10"
  /\ style (set_style first_node (Some "#fff") None (Some 0%Z) None)
     = Some "style 100 fill:#fff".
Proof. vm_compute. repeat split; reflexivity. Qed.

(** [s[:-1]] removes a trailing comma. *)
Lemma drop_last_comma (s : string) : drop_last (s ++ ",") = s.
Proof.
  induction s as [|c s IH]; [reflexivity|].
  destruct s as [|c' s']; [reflexivity|].
  change (String c (drop_last (String c' s' ++ ",")) = String c (String c' s')).
  rewrite IH. reflexivity.
Qed.

Lemma append_empty_r (s : string) : s ++ EmptyString = s.
Proof. induction s as [|c s IH]; cbn; [reflexivity | rewrite IH; reflexivity]. Qed.

Lemma append_assoc (a b c : string) : (a ++ b) ++ c = a ++ b ++ c.
Proof. induction a as [|x a IH]; cbn; [reflexivity | rewrite IH; reflexivity]. Qed.

(** [set_style] in one piece: the fragments of the truthy arguments after
    the id, and then the last character cut, whatever it is. *)
Lemma set_style_fragments (n : Node) (fill stroke : option string)
  (stroke_width : option Z) (stroke_dasharray : option (list Z)) :
  style (set_style n fill stroke stroke_width stroke_dasharray)
  = Some (drop_last ("style " ++ node_id n
                       ++ style_fragments fill stroke stroke_width stroke_dasharray)).
Proof.
  unfold set_style, style_fragments, opt_fragment. cbn [style with_style].
  destruct (truthy_str fill), (truthy_str stroke), (truthy_int stroke_width),
    (truthy_list stroke_dasharray);
    repeat rewrite append_assoc; repeat rewrite append_empty_r; reflexivity.
Qed.

(** C8. The shape table round-trips: [set_shape] on a table name sets the
    table's delimiter pair, and [set_shape_raw] accepts a string exactly
    when it is one of the twelve (distinct) delimiter pairs of the table;
    any other string, the default rectangle included, is rejected. *)
Theorem shape_table_roundtrip (n : Node) (name shp s : string) :
  (dict_get shape_map name = Some shp ->
   exists n', set_shape n name = Ok n' /\ shape n' = shp)
  /\ (In s (dict_values shape_map) <->
      exists n', set_shape_raw n s = Ok n' /\ shape n' = s)
  /\ (~ In s (dict_values shape_map) <-> exists e, set_shape_raw n s = Raise e)
  /\ length (dict_values shape_map) = 12
  /\ NoDup (dict_values shape_map)
  /\ (exists e, set_shape_raw n default_shape = Raise e).
Proof.
  assert (Hin : in_values s = true <-> In s (dict_values shape_map)).
  { unfold in_values. rewrite existsb_exists. split.
    - intros [x [Hx Heq]]. apply String.eqb_eq in Heq. subst. exact Hx.
    - intros H. exists s. split; [exact H | apply String.eqb_refl]. }
  split; [|split; [|split; [|split; [|split]]]].
  - intros Hname. unfold set_shape. rewrite Hname. eexists. split; reflexivity.
  - unfold set_shape_raw. split.
    + intros H. apply Hin in H. rewrite H. cbn. eexists. split; reflexivity.
    + intros [n' [H _]]. apply Hin. destruct (in_values s); [reflexivity | discriminate].
  - unfold set_shape_raw. split.
    + intros H. destruct (in_values s) eqn:E.
      * exfalso. apply H, Hin. reflexivity.
      * cbn. eexists. reflexivity.
    + intros [e H] Hs. apply Hin in Hs. rewrite Hs in H. discriminate.
  - reflexivity.
  - cbn. repeat constructor; cbn; intuition discriminate.
  - eexists. reflexivity.
Qed.

Lemma shape_table_roundtrip_witness :
  (exists n', set_shape first_node "hexagon" = Ok n' /\ shape n' = "{{}}")
  /\ (exists n', set_shape_raw first_node "[()]" = Ok n' /\ shape n' = "[()]")
  /\ (exists e, set_shape_raw first_node "[]" = Raise e).
Proof.
  pose proof (shape_table_roundtrip first_node "hexagon" "{{}}" "[()]") as H1.
  pose proof (shape_table_roundtrip first_node "hexagon" "{{}}" "[]") as H2.
  split; [|split].
  - apply (proj1 H1). reflexivity.
  - apply (proj1 (proj1 (proj2 H1))). cbn. tauto.
  - apply (proj1 (proj1 (proj2 (proj2 H2)))). cbn. intuition discriminate.
Defined.

(* ================================================================= *)
(** ** Properties of Flowchart.to_mermaid *)

Lemma fold_emit_line (lines : list string) (acc : string) :
  fold_left emit_line lines acc = acc ++ str_concat (map strip lines).
Proof.
  revert acc. induction lines as [|l lines IH]; intros acc; cbn.
  - symmetry. apply append_empty_r.
  - rewrite IH. unfold emit_line. apply append_assoc.
Qed.

Lemma emit_node_block (acc : string) (n : Node) :
  emit_node acc n = acc ++ node_block n.
Proof.
  unfold emit_node, node_block. destruct (style n).
  - repeat rewrite append_assoc. reflexivity.
  - rewrite append_empty_r. reflexivity.
Qed.

Lemma fold_emit_node (ns : list Node) (acc : string) :
  fold_left emit_node ns acc = acc ++ str_concat (map node_block ns).
Proof.
  revert acc. induction ns as [|n ns IH]; intros acc; cbn.
  - symmetry. apply append_empty_r.
  - rewrite IH, emit_node_block. apply append_assoc.
Qed.

(** [rstrip] leaves alone a string that ends in a non-blank tail. *)
Lemma rstrip_nonblank_tail (s r : string) :
  rstrip r = r -> str_is_empty r = false -> rstrip (s ++ r) = s ++ r.
Proof.
  intros Hr Hne. induction s as [|c s IH]; cbn [append]; [exact Hr|].
  cbn [rstrip]. rewrite IH.
  assert (Hsr : str_is_empty (s ++ r) = false).
  { destruct s; [exact Hne | reflexivity]. }
  rewrite Hsr, andb_false_r. reflexivity.
Qed.

Lemma strip_node_line (id left_half lbl right_half : string) :
  rstrip right_half = right_half -> str_is_empty right_half = false ->
  strip (nl ++ id ++ left_half ++ lbl ++ right_half)
  = nl ++ id ++ left_half ++ lbl ++ right_half.
Proof.
  intros Hr Hne. unfold strip.
  change (lstrip (nl ++ id ++ left_half ++ lbl ++ right_half))
    with (nl ++ id ++ left_half ++ lbl ++ right_half).
  repeat rewrite <- append_assoc.
  apply rstrip_nonblank_tail; assumption.
Qed.

(** C6 as stated fails: the blank that ends the label of a node without
    delimiters is cut from its line. *)
Lemma trailing_blank_is_cut :
  to_mermaid bare_label_chart = "graph TD" ++ nl ++ "100a"
  /\ recorded_layout bare_label_chart = "graph TD" ++ nl ++ "100a "
  /\ to_mermaid bare_label_chart <> recorded_layout bare_label_chart.
Proof. vm_compute. repeat split; discriminate. Qed.

(** C6, amended. [to_mermaid] returns the header naming the orientation,
    then for each node in insertion order its definition line followed at
    once by its style line when the style is set, then one line per recorded
    path in insertion order, then the callback-click lines, then the
    href-click lines; every line is emitted with its leading and trailing
    blanks cut.  For a node whose shape is the default or one of the
    table's, the definition line is exactly the id, the first half of the
    shape, the label and the second half of the shape. *)
Theorem to_mermaid_layout (c : Flowchart) (n : Node) :
  to_mermaid c = markup_layout c
  /\ (In (shape n) known_shapes -> strip (get_node_code n) = node_line n).
Proof.
  split.
  - unfold to_mermaid, markup_layout.
    rewrite !fold_emit_line, fold_emit_node.
    repeat rewrite append_assoc. reflexivity.
  - destruct n as [lbl id shp sty]. cbn [shape]. intros Hin.
    unfold get_node_code, node_line, shape_midpoint. cbn [shape label node_id].
    cbn in Hin.
    repeat (destruct Hin as [<- | Hin];
            [cbn [String.length Nat.div2 str_take str_drop];
             apply strip_node_line; reflexivity|]).
    contradiction.
Qed.

Lemma to_mermaid_layout_witness :
  strip (get_node_code first_node) = node_line first_node.
Proof.
  apply (proj2 (to_mermaid_layout empty_flowchart first_node)).
  cbn. left. reflexivity.
Defined.

(* ================================================================= *)
(** ** The resolver on acyclic configurations *)

Lemma str_in_keys {V : Type} (d : alist V) (k : string) :
  str_in k (dict_keys d) = dict_mem d k.
Proof.
  unfold dict_mem, str_in. induction d as [|[k' v] d IH]; cbn; [reflexivity|].
  rewrite (String.eqb_sym k k'). destruct (String.eqb k' k); [reflexivity | exact IH].
Qed.

(** Every value stored in a well-formed dict is well formed. *)
Lemma wf_dict_get (d : dict) (k : string) (v : pyval) :
  wf_val (PDict d) -> dict_get d k = Some v -> wf_val v.
Proof.
  cbn [wf_val]. intros [_ Hall]. induction d as [|[k' v'] d IH]; cbn; [discriminate|].
  destruct Hall as [Hv Hall]. destruct (String.eqb k' k).
  - intros [= <-]. exact Hv.
  - apply IH, Hall.
Qed.

Lemma wf_dict_keys (d : dict) : wf_val (PDict d) -> NoDup (dict_keys d).
Proof. cbn [wf_val]. intros [H _]. exact H. Qed.

(** Setting a key the dict does not hold appends the entry. *)
Lemma dict_set_fresh {V : Type} (d : alist V) (k : string) (v : V) :
  ~ In k (dict_keys d) -> dict_set d k v = (d ++ [(k, v)])%list.
Proof.
  induction d as [|[k' v'] d IH]; cbn; intros Hfresh; [reflexivity|].
  destruct (String.eqb k' k) eqn:E.
  - apply String.eqb_eq in E. exfalso. apply Hfresh. left. exact E.
  - rewrite IH; [reflexivity | intros Hin; apply Hfresh; right; exact Hin].
Qed.

#[local] Arguments str_in : simpl never.

(** One call of the resolver, by the class of the definition. *)
Ltac classify_cases H :=
  unfold classify, classify_undeclared, classify_declared in H;
  repeat match type of H with
         | context [match ?x with _ => _ end] =>
             let E := fresh "E" in destruct x eqn:E; try discriminate H
         | context [if ?x then _ else _] =>
             let E := fresh "E" in destruct x eqn:E; try discriminate H
         end.

Ltac resolver_step :=
  cbn [get_source_dependency_tree lookup_source bind fst snd meth_get meth_keys
       subscript];
  repeat match goal with
         | E : dict_get ?d ?k = Some _ |- context [py_get ?d ?k] =>
             rewrite (py_get_some _ _ _ E)
         | E : dict_get ?d ?k = None |- context [py_get ?d ?k] =>
             rewrite (py_get_none _ _ E)
         | E : dict_get ?d ?k = _ |- context [dict_get ?d ?k] => rewrite E
         | E : String.eqb ?a ?b = true |- _ => apply String.eqb_eq in E; subst a
         | |- _ => progress cbn [bind fst snd meth_get meth_keys subscript]
         end.

Lemma resolve_leaf (cfg : dict) (k : string) (kind : leaf_kind) (fuel : nat) :
  classify cfg k = Some (CLeaf kind) ->
  get_source_dependency_tree (S fuel) cfg (PStr k) = Ok (encode (DLeaf k kind)).
Proof.
  intros H. classify_cases H; injection H as <-; resolver_step; cbn;
    try rewrite str_in_keys;
    repeat match goal with E : dict_mem _ _ = _ |- _ => rewrite E end;
    reflexivity.
Qed.

Lemma resolve_mapping (cfg : dict) (k l r : string) (fuel : nat) :
  classify cfg k = Some (CMapping l r) ->
  get_source_dependency_tree (S fuel) cfg (PStr k)
  = (left_tree <- get_source_dependency_tree fuel cfg (PStr l) ;;
     right_tree <- get_source_dependency_tree fuel cfg (PStr r) ;;
     Ok [(k, PDict [("mapping",
                     PDict [("left", PDict left_tree); ("right", PDict right_tree)])])]).
Proof.
  intros H. classify_cases H; injection H as <- <-; resolver_step; reflexivity.
Qed.

Lemma resolve_union (cfg : dict) (k : string) (cs : list string) (fuel : nat) :
  classify cfg k = Some (CUnion cs) ->
  get_source_dependency_tree (S fuel) cfg (PStr k)
  = (union_nest <- union_loop (get_source_dependency_tree fuel cfg) cs [] ;;
     Ok [(k, PDict [("union", PDict union_nest)])]).
Proof.
  intros H. classify_cases H; injection H as <-; resolver_step; reflexivity.
Qed.

Lemma resolve_multi (cfg : dict) (k o : string) (fuel : nat) :
  classify cfg k = Some (CMulti o) ->
  get_source_dependency_tree (S fuel) cfg (PStr k)
  = (original_nest <- get_source_dependency_tree fuel cfg (PStr o) ;;
     Ok [(k, PDict [("multi", PDict original_nest)])]).
Proof.
  intros H. classify_cases H; injection H as <-; resolver_step; reflexivity.
Qed.

(** The child keys of a union are the keys of a dict: no key twice. *)
Lemma union_children_distinct (cfg : dict) (k : string) (cs : list string) :
  wf_val (PDict cfg) -> classify cfg k = Some (CUnion cs) -> NoDup cs.
Proof.
  intros Hwf H. classify_cases H; injection H as <-.
  all: apply wf_dict_keys.
  all: repeat match goal with
         | E : dict_get ?d ?key = Some ?v |- wf_val ?v =>
             apply (wf_dict_get d key v); [|exact E]
         end; exact Hwf.
Qed.

(** The union loop merges the single-entry trees of distinct children into
    the list of their entries. *)
Lemma union_loop_entries (resolve : pyval -> result dict)
  (cs : list string) (ts : list dtree) (acc : dict) :
  Forall2 (fun c t => resolve (PStr c) = Ok (encode t)) cs ts ->
  map dkey ts = cs ->
  NoDup (dict_keys acc ++ cs) ->
  union_loop resolve cs acc = Ok (acc ++ map encode_entry ts)%list.
Proof.
  intros Hall. revert acc.
  induction Hall as [|c t cs ts Hc Hall IH]; intros acc Hkeys Hnd; cbn.
  - rewrite app_nil_r. reflexivity.
  - rewrite Hc. cbn [bind]. injection Hkeys as Hk Hks.
    unfold dict_update, encode. cbn [fold_left encode_entry fst snd].
    rewrite dict_set_fresh.
    + rewrite IH; [rewrite <- app_assoc; reflexivity | exact Hks |].
      unfold dict_keys in *. rewrite map_app, <- app_assoc. cbn. rewrite Hk. exact Hnd.
    + rewrite Hk. intros Hin. apply NoDup_remove_2 in Hnd. apply Hnd.
      apply in_or_app. left. exact Hin.
Qed.

Section AcyclicConfig.

Variable cfg : dict.
Hypothesis cfg_wf : wf_val (PDict cfg).

Lemma resolved_key (k : string) (c : source_class) (n : nat) :
  classify cfg k = Some c -> all_resolved cfg (class_children c) n -> resolved cfg k (S n).
Proof.
  intros Hclass (ts & Hkeys & Hsum & Hall).
  destruct c as [kind | l r | cs | o]; cbn [class_children] in Hkeys.
  - exists (DLeaf k kind). destruct ts; [|discriminate]. cbn in Hsum. subst n.
    repeat split. intros [|fuel] Hfuel; [lia|]. apply resolve_leaf, Hclass.
  - destruct ts as [|tl [|tr [|]]]; try discriminate.
    injection Hkeys as Hl Hr. cbn in Hsum.
    exists (DMapping k tl tr). repeat split; [cbn; lia|].
    intros [|fuel] Hfuel; [lia|]. unfold resolves_to.
    rewrite (resolve_mapping _ _ _ _ _ Hclass).
    assert (Hf : n <= fuel) by lia. specialize (Hall fuel Hf).
    inversion Hall as [|? ? ? ? Hleft Hrest]; subst.
    inversion Hrest as [|? ? ? ? Hright _]; subst.
    unfold resolves_to in Hleft, Hright. rewrite Hleft, Hright. reflexivity.
  - exists (DUnion k ts). repeat split; [cbn; lia|].
    intros [|fuel] Hfuel; [lia|]. unfold resolves_to.
    rewrite (resolve_union _ _ _ _ Hclass).
    assert (Hf : n <= fuel) by lia. specialize (Hall fuel Hf).
    rewrite (union_loop_entries _ cs ts []); [reflexivity | exact Hall | exact Hkeys |].
    cbn. apply (union_children_distinct cfg k cs cfg_wf Hclass).
  - destruct ts as [|t [|]]; try discriminate.
    injection Hkeys as Ho. cbn in Hsum.
    exists (DMulti k t). repeat split; [cbn; lia|].
    intros [|fuel] Hfuel; [lia|]. unfold resolves_to.
    rewrite (resolve_multi _ _ _ _ Hclass).
    assert (Hf : n <= fuel) by lia. specialize (Hall fuel Hf).
    inversion Hall as [|? ? ? ? Horig _]; subst.
    unfold resolves_to in Horig. rewrite Horig. reflexivity.
Qed.

Lemma visits_resolved (k : string) (n : nat) : visits cfg k n -> resolved cfg k n.
Proof.
  intros H.
  induction H using visits_mut with (P0 := all_resolved cfg).
  - eapply resolved_key; eassumption.
  - exists []. repeat split. intros; constructor.
  - destruct IHvisits as (t & Hk & Hn & Ht).
    destruct IHvisits0 as (ts & Hks & Hm & Hts).
    exists (t :: ts). cbn. subst. repeat split.
    intros fuel Hfuel. constructor; [apply Ht | apply Hts]; lia.
Qed.

End AcyclicConfig.

(** A union of two unions that share a child: [c] is visited twice. *)
Lemma shared_child_visits : visits shared_child_config "u" 5.
Proof.
  apply (visits_key _ "u" (CUnion ["a"; "b"]) 4); [reflexivity|].
  apply (visits_cons _ "a" ["b"] 2 2).
  - apply (visits_key _ "a" (CUnion ["c"]) 1); [reflexivity|].
    apply (visits_cons _ "c" [] 1 0); [|constructor].
    apply (visits_key _ "c" (CLeaf File) 0); [reflexivity | constructor].
  - apply (visits_cons _ "b" [] 2 0); [|constructor].
    apply (visits_key _ "b" (CUnion ["c"]) 1); [reflexivity|].
    apply (visits_cons _ "c" [] 1 0); [|constructor].
    apply (visits_key _ "c" (CLeaf File) 0); [reflexivity | constructor].
Qed.

Lemma shared_child_config_wf : wf_val (PDict shared_child_config).
Proof.
  cbn. repeat split; repeat constructor; cbn; intuition discriminate.
Qed.

(** C2. When every key reachable from the target has a class and the
    references are well founded, [get_source_dependency_tree] returns, for
    every call depth that is at least the number [n] of keys visited, one
    and the same tree; the tree is rooted at the target and has exactly [n]
    source-key entries, a key referenced along several paths being counted
    once for each. *)
Theorem resolver_terminates_with_visit_count (cfg : dict) (k : string) (n : nat) :
  wf_val (PDict cfg) ->
  visits cfg k n ->
  exists t : dtree,
    dkey t = k /\ entries t = n /\
    forall fuel, n <= fuel ->
      get_source_dependency_tree fuel cfg (PStr k) = Ok (encode t).
Proof. intros Hwf Hvisits. exact (visits_resolved cfg Hwf k n Hvisits). Qed.

Lemma resolver_terminates_with_visit_count_witness :
  exists t : dtree,
    dkey t = "u" /\ entries t = 5 /\
    forall fuel, 5 <= fuel ->
      get_source_dependency_tree fuel shared_child_config (PStr "u") = Ok (encode t).
Proof.
  apply (resolver_terminates_with_visit_count shared_child_config "u" 5).
  - exact shared_child_config_wf.
  - exact shared_child_visits.
Defined.

(* ================================================================= *)
(** ** The builder on well-formed trees *)

Lemma dict_get_head {V : Type} (k : string) (v : V) (d : alist V) :
  dict_get ((k, v) :: d) k = Some v.
Proof. cbn. rewrite String.eqb_refl. reflexivity. Qed.

Lemma leaf_node_map_tag (kind : leaf_kind) :
  dict_get leaf_node_map (leaf_tag kind) = Some (leaf_shape kind).
Proof. destruct kind; reflexivity. Qed.

Lemma chart_with_chart_with (c : Flowchart) (n1 n2 : list Node) (e1 e2 : list edge) :
  chart_with (chart_with c n1 e1) n2 e2 = chart_with c (n1 ++ n2) (e1 ++ e2).
Proof.
  unfold chart_with. cbn. rewrite map_app, !app_assoc. reflexivity.
Qed.

(** Adding a tree's root: its node, and its edge when there is a parent. *)
Lemma root_added (chart : Flowchart) (t : dtree) (id : nat)
  (parent : option Node) (b : branch) :
  link_to_parent (add_node chart (tree_node t id)) (tree_node t id) parent
    (if is_leaf t && is_mapping_right b then dashed else solid)
  = chart_with chart [tree_node t id] (own_edge t id parent b).
Proof.
  unfold link_to_parent, own_edge, chart_with, add_path, add_node.
  destruct parent as [p|]; cbn [map orientation theme nodes paths hrefs clicks].
  - unfold path_code, edge_code, edge_style. cbn [str_is_empty edge_from edge_to from_leaf via].
    destruct t; reflexivity.
  - rewrite app_nil_r. reflexivity.
Qed.

Ltac builder_step :=
  unfold encode at 1, encode_entry at 1;
  cbn [build_source_dependency_chart meth_keys meth_get bind dict_keys map fst snd];
  unfold py_get at 1; rewrite dict_get_head;
  cbn [encode_nest dkey].

(** One call of the builder, by the shape of the tree. *)
Lemma build_leaf (fuel id : nat) (chart : Flowchart) (k : string) (kind : leaf_kind)
  (parent : option Node) (b : branch) :
  build_source_dependency_chart (S fuel) (id, chart) (PDict (encode (DLeaf k kind)))
    parent (is_mapping_right b)
  = Ok (S id, chart_with chart [tree_node (DLeaf k kind) id]
                (own_edge (DLeaf k kind) id parent b)).
Proof.
  builder_step. rewrite leaf_node_map_tag.
  rewrite <- root_added. cbn [is_leaf andb new_node fst snd tree_node].
  destruct (is_mapping_right b); reflexivity.
Qed.

Lemma build_mapping (fuel id : nat) (chart : Flowchart) (k : string) (l r : dtree)
  (parent : option Node) (map_right : bool) (b : branch) :
  let t := DMapping k l r in
  build_source_dependency_chart (S fuel) (id, chart) (PDict (encode t)) parent map_right
  = (st <- build_source_dependency_chart fuel
             (S id, chart_with chart [tree_node t id] (own_edge t id parent b))
             (PDict (encode l)) (Some (tree_node t id)) false ;;
     build_source_dependency_chart fuel st (PDict (encode r))
       (Some (tree_node t id)) true).
Proof.
  intros t. rewrite <- root_added. subst t. builder_step. reflexivity.
Qed.

Lemma build_union (fuel id : nat) (chart : Flowchart) (k : string) (cs : list dtree)
  (parent : option Node) (map_right : bool) (b : branch) :
  let t := DUnion k cs in
  build_source_dependency_chart (S fuel) (id, chart) (PDict (encode t)) parent map_right
  = union_items_loop
      (fun st tree =>
         build_source_dependency_chart fuel st tree (Some (tree_node t id)) false)
      (map encode_entry cs)
      (S id, chart_with chart [tree_node t id] (own_edge t id parent b)).
Proof.
  intros t. rewrite <- root_added. subst t. builder_step. reflexivity.
Qed.

Lemma build_multi (fuel id : nat) (chart : Flowchart) (k : string) (o : dtree)
  (parent : option Node) (map_right : bool) (b : branch) :
  let t := DMulti k o in
  build_source_dependency_chart (S fuel) (id, chart) (PDict (encode t)) parent map_right
  = build_source_dependency_chart fuel
      (S id, chart_with chart [tree_node t id] (own_edge t id parent b))
      (PDict (encode o)) (Some (tree_node t id)) false.
Proof.
  intros t. rewrite <- root_added. subst t. builder_step. reflexivity.
Qed.

(** The union loop over the entries of a forest. *)
Lemma union_items_forest (build : build_state -> pyval -> result build_state)
  (parent : Node) (cs : list dtree) :
  forall (id : nat) (chart : Flowchart),
  (forall c id chart, In c cs ->
     build (id, chart) (PDict (encode c))
     = Ok (entries c + id,
           chart_with chart (tree_nodes c id)
             (tree_edges c id (Some parent) UnionChild))) ->
  union_items_loop build (map encode_entry cs) (id, chart)
  = Ok (list_sum (map entries cs) + id,
        chart_with chart (forest tree_nodes cs id)
          (forest (fun c id' => tree_edges c id' (Some parent) UnionChild) cs id)).
Proof.
  induction cs as [|c cs IH]; intros id chart Hbuild.
  - cbn. unfold chart_with. cbn. rewrite !app_nil_r. destruct chart; reflexivity.
  - cbn [map union_items_loop encode_entry dict_set].
    change (PDict [(dkey c, encode_nest c)]) with (PDict (encode c)).
    rewrite Hbuild by (left; reflexivity). cbn [bind].
    rewrite IH by (intros; apply Hbuild; right; assumption).
    rewrite chart_with_chart_with. cbn [forest map].
    f_equal. f_equal. unfold list_sum. cbn [fold_right]. lia.
Qed.

(** The builder on a well-formed tree: it adds the tree's nodes in
    pre-order and, for every node but a parentless root, the edge to its
    parent, styled by [edge_style]. *)
Lemma build_tree (fuel : nat) :
  forall (t : dtree) (id : nat) (chart : Flowchart) (parent : option Node) (b : branch),
  height t <= fuel ->
  build_source_dependency_chart fuel (id, chart) (PDict (encode t)) parent
    (is_mapping_right b)
  = Ok (entries t + id, chart_with chart (tree_nodes t id) (tree_edges t id parent b)).
Proof.
  induction fuel as [|fuel IH]; intros t id chart parent b Hfuel.
  - destruct t; cbn in Hfuel; lia.
  - destruct t as [k kind | k l r | k cs | k o].
    + rewrite build_leaf. cbn [tree_nodes tree_edges entries]. rewrite app_nil_r. reflexivity.
    + cbn [height] in Hfuel.
      rewrite (build_mapping _ _ _ _ _ _ _ _ b). cbv zeta.
      rewrite (IH l _ _ _ MappingLeft) by lia. cbn [bind].
      rewrite (IH r _ _ _ MappingRight) by lia.
      rewrite !chart_with_chart_with. cbn [tree_nodes tree_edges entries].
      f_equal. f_equal. lia.
    + cbn [height] in Hfuel.
      rewrite (build_union _ _ _ _ _ _ _ b). cbv zeta.
      rewrite (union_items_forest _ (tree_node (DUnion k cs) id)).
      * rewrite chart_with_chart_with. cbn [tree_nodes tree_edges entries].
        f_equal. f_equal. lia.
      * intros c id' chart' Hin. apply (IH c id' chart' _ UnionChild).
        assert (Hmax : list_max (map height cs) <= fuel) by lia.
        rewrite list_max_le in Hmax. rewrite Forall_forall in Hmax.
        apply Hmax, in_map, Hin.
    + cbn [height] in Hfuel.
      rewrite (build_multi _ _ _ _ _ _ _ b). cbv zeta.
      rewrite (IH o _ _ _ MultiChild) by lia.
      rewrite chart_with_chart_with. cbn [tree_nodes tree_edges entries].
      f_equal. f_equal. lia.
Qed.

Lemma edge_style_dashed_iff (e : edge) :
  edge_style e = dashed <-> from_leaf e = true /\ via e = MappingRight.
Proof.
  unfold edge_style. destruct (from_leaf e), (via e); cbn; split;
    try (intros [? ?]); intros; try discriminate; try split; reflexivity.
Qed.

Lemma edge_style_solid_or_dashed (e : edge) :
  edge_style e = solid \/ edge_style e = dashed.
Proof. unfold edge_style. destruct (from_leaf e && is_mapping_right (via e)); auto. Qed.

(** C5. The builder, run on a well-formed tree, appends to the chart one
    path per edge of the tree, and the style of each is dashed exactly when
    the edge starts at a leaf that is the right sub-tree of a mapping; the
    edge of a composite node to its parent and the edges of union and multi
    children (and of left mapping children) are solid. *)
Theorem dashed_iff_right_leaf_of_mapping
  (t : dtree) (fuel id : nat) (chart : Flowchart) :
  height t <= fuel ->
  (exists chart',
     build_source_dependency_chart fuel (id, chart) (PDict (encode t)) None false
     = Ok (entries t + id, chart')
     /\ nodes chart' = (nodes chart ++ tree_nodes t id)%list
     /\ paths chart'
        = (paths chart ++ map edge_code (tree_edges t id None Root))%list)
  /\ forall e : edge,
       In e (tree_edges t id None Root) ->
       (edge_style e = dashed <-> from_leaf e = true /\ via e = MappingRight)
       /\ (from_leaf e = false -> edge_style e = solid)
       /\ (via e <> MappingRight -> edge_style e = solid)
       /\ (edge_style e = solid \/ edge_style e = dashed)
       /\ solid <> dashed.
Proof.
  intros Hfuel. split.
  - exists (chart_with chart (tree_nodes t id) (tree_edges t id None Root)).
    split; [|split; reflexivity].
    exact (build_tree fuel t id chart None Root Hfuel).
  - intros e _. split; [apply edge_style_dashed_iff|].
    split; [|split; [|split; [apply edge_style_solid_or_dashed | discriminate]]].
    + unfold edge_style. intros ->. reflexivity.
    + unfold edge_style. intros Hvia.
      destruct (via e); try (rewrite andb_false_r; reflexivity).
      contradiction Hvia. reflexivity.
Qed.

Lemma dashed_iff_right_leaf_of_mapping_witness :
  exists chart',
    build_source_dependency_chart 2 (id_iter_start, empty_flowchart)
      (PDict (encode scenario_dtree)) None false
    = Ok (entries scenario_dtree + id_iter_start, chart')
    /\ nodes chart' = tree_nodes scenario_dtree id_iter_start
    /\ paths chart'
       = map edge_code (tree_edges scenario_dtree id_iter_start None Root).
Proof.
  apply (proj1 (dashed_iff_right_leaf_of_mapping scenario_dtree 2 id_iter_start
                  empty_flowchart (le_n 2))).
Defined.

(** The edges of the mapping scenario, as the styling rule gives them. *)
Example scenario_edges :
  map (fun e => (edge_from e, edge_style e, edge_to e))
      (tree_edges scenario_dtree id_iter_start None Root)
  = [("101", "-->", "100"); ("102", "-.->", "100")].
Proof. vm_compute. reflexivity. Qed.

(* ================================================================= *)
(** ** What a successful resolution tells about the configuration *)

Lemma py_get_dict (d : dict) (k : string) (x : dict) :
  py_get d k = PDict x -> dict_get d k = Some (PDict x).
Proof. unfold py_get. destruct (dict_get d k); [intros -> | discriminate]; reflexivity. Qed.

Lemma py_get_str (d : dict) (k s : string) :
  py_get d k = PStr s -> dict_get d k = Some (PStr s).
Proof. unfold py_get. destruct (dict_get d k); [intros -> | discriminate]; reflexivity. Qed.

Lemma py_get_None (d : dict) (k : string) :
  py_get d k = PNone -> dict_get d k = None \/ dict_get d k = Some PNone.
Proof. unfold py_get. destruct (dict_get d k); [intros -> | ]; auto. Qed.

Section Soundness.

#[local] Arguments String.eqb : simpl never.
#[local] Arguments str_in : simpl never.

Variable cfg : dict.
Hypothesis cfg_wf : wf_val (PDict cfg).

(** The union loop, read backwards: when it succeeds, every child was
    resolved and the merged dict lists the children's entries in order. *)
Lemma union_loop_sound (fuel : nat) (resolve : pyval -> result dict)
  (cs : list string) :
  (forall key t, resolve key = Ok t -> sound_result cfg fuel key t) ->
  forall (acc u : dict),
  NoDup (dict_keys acc ++ cs) ->
  union_loop resolve cs acc = Ok u ->
  exists ts : list dtree,
    u = (acc ++ map encode_entry ts)%list /\ map dkey ts = cs
    /\ Forall (fun t => height t <= fuel) ts
    /\ visits_all cfg cs (list_sum (map entries ts)).
Proof.
  intros Hres. induction cs as [|c cs IHcs]; intros acc u Hnd H; cbn in H.
  - injection H as <-. exists []. cbn. rewrite app_nil_r.
    repeat split; constructor.
  - destruct (resolve (PStr c)) as [r|] eqn:Hc; cbn in H; [|discriminate H].
    destruct (Hres _ _ Hc) as (dt & -> & [= ->] & Hh & Hv).
    unfold dict_update, encode in H. cbn [fold_left encode_entry fst snd] in H.
    rewrite dict_set_fresh in H.
    + apply IHcs in H.
      * destruct H as (ts & -> & Hks & Hhs & Hvs).
        exists (dt :: ts). cbn [map]. rewrite <- app_assoc. cbn [app].
        repeat split.
        -- rewrite Hks. reflexivity.
        -- constructor; assumption.
        -- unfold list_sum. cbn [fold_right]. constructor; assumption.
      * unfold dict_keys in *. rewrite map_app, <- app_assoc. exact Hnd.
    + intros Hin. apply NoDup_remove_2 in Hnd. apply Hnd.
      apply in_or_app. left. exact Hin.
Qed.

Lemma resolve_sound_step (fuel : nat) (key : pyval) (t : dict) :
  (forall key' t', get_source_dependency_tree fuel cfg key' = Ok t' -> sound_result cfg fuel key' t') ->
  get_source_dependency_tree (S fuel) cfg key = Ok t ->
  sound_result cfg (S fuel) key t.
Proof.
  intros IH H. cbn [get_source_dependency_tree] in H.
  destruct key as [| | |k| |]; cbn in H; try discriminate H.
  destruct (py_get cfg k) as [| | | | |def] eqn:Hdef; cbn in H; try discriminate H.
  apply py_get_dict in Hdef.
  destruct (py_get def "type") as [| | |ty| |] eqn:Hty; cbn in H; try discriminate H.
  - (* no declared type: a leaf, by inference *)
    destruct (py_get def "connection") as [| | | | |conn] eqn:Hconn; cbn in H;
      try discriminate H.
    destruct (py_get conn "config") as [| | | | |c] eqn:Hc; cbn in H;
      try discriminate H.
    apply py_get_dict in Hconn, Hc. rewrite str_in_keys in H.
    exists (DLeaf k (if dict_mem c "file_type" then File else Sql)).
    split; [destruct (dict_mem c "file_type"); injection H as <-; reflexivity|].
    split; [reflexivity|]. split; [cbn; lia|].
    apply (visits_key cfg k (CLeaf (if dict_mem c "file_type" then File else Sql)) 0);
      [|constructor].
    unfold classify, classify_undeclared. rewrite Hdef.
    destruct (py_get_None _ _ Hty) as [-> | ->]; rewrite Hconn, Hc; reflexivity.
  - (* a declared type *)
    apply py_get_str in Hty.
    destruct (String.eqb ty "mapping") eqn:Emap;
      [|destruct (String.eqb ty "union") eqn:Euni;
        [|destruct (String.eqb ty "multi") eqn:Emul]]; cbn in H.
    + (* mapping *)
      apply String.eqb_eq in Emap. subst ty.
      destruct (get_source_dependency_tree fuel cfg (py_get def "left"))
        as [lt|] eqn:Hl; cbn in H; [|discriminate H].
      destruct (get_source_dependency_tree fuel cfg (py_get def "right"))
        as [rt|] eqn:Hr; cbn in H; [|discriminate H].
      destruct (IH _ _ Hl) as (dl & -> & Hlk & Hlh & Hlv).
      destruct (IH _ _ Hr) as (dr & -> & Hrk & Hrh & Hrv).
      apply py_get_str in Hlk, Hrk.
      exists (DMapping k dl dr). injection H as <-.
      split; [reflexivity|]. split; [reflexivity|]. split; [cbn; lia|].
      cbn [dkey entries].
      apply (visits_key cfg k (CMapping (dkey dl) (dkey dr))).
      * unfold classify. rewrite Hdef, Hty. unfold classify_declared.
        rewrite Hlk, Hrk. reflexivity.
      * cbn [class_children].
        replace (entries dl + entries dr) with (entries dl + (entries dr + 0)) by lia.
        apply visits_cons; [exact Hlv|]. apply visits_cons; [exact Hrv|]. apply visits_nil.
    + (* union *)
      apply String.eqb_eq in Euni. subst ty.
      destruct (dict_get def "sources") as [srcs|] eqn:Hs; cbn in H; [|discriminate H].
      destruct srcs as [| | | | |s]; cbn in H; try discriminate H.
      destruct (union_loop (get_source_dependency_tree fuel cfg) (dict_keys s) [])
        as [u|] eqn:Hu; cbn in H; [|discriminate H].
      apply (union_loop_sound fuel _ _ IH) in Hu.
      * destruct Hu as (ts & -> & Hks & Hhs & Hvs).
        exists (DUnion k ts). injection H as <-.
        split; [reflexivity|]. split; [reflexivity|].
        split.
        -- cbn [height]. apply le_n_S. apply list_max_le.
           apply Forall_map. exact Hhs.
        -- cbn [dkey entries]. apply (visits_key cfg k (CUnion (dict_keys s))).
           ++ unfold classify. rewrite Hdef, Hty. unfold classify_declared.
              rewrite Hs. reflexivity.
           ++ exact Hvs.
      * cbn. apply wf_dict_keys.
        apply (wf_dict_get def "sources"); [|exact Hs].
        apply (wf_dict_get cfg k); [exact cfg_wf | exact Hdef].
    + (* multi *)
      apply String.eqb_eq in Emul. subst ty.
      destruct (get_source_dependency_tree fuel cfg (py_get def "original"))
        as [ot|] eqn:Ho; cbn in H; [|discriminate H].
      destruct (IH _ _ Ho) as (do & -> & Hok & Hoh & Hov).
      apply py_get_str in Hok.
      exists (DMulti k do). injection H as <-.
      split; [reflexivity|]. split; [reflexivity|]. split; [cbn; lia|].
      cbn [dkey entries].
      apply (visits_key cfg k (CMulti (dkey do))).
      * unfold classify. rewrite Hdef, Hty. unfold classify_declared.
        rewrite Hok. reflexivity.
      * cbn [class_children].
        replace (entries do) with (entries do + 0) by lia.
        apply visits_cons; [exact Hov | apply visits_nil].
    + (* neither composite *)
      destruct (String.eqb ty "union_directory") eqn:Eud; [|discriminate H].
      apply String.eqb_eq in Eud. subst ty.
      exists (DLeaf k UnionDirectory). injection H as <-.
      split; [reflexivity|]. split; [reflexivity|]. split; [cbn; lia|].
      apply (visits_key cfg k (CLeaf UnionDirectory) 0); [|constructor].
      unfold classify. rewrite Hdef, Hty. reflexivity.
Qed.

Lemma resolve_sound (fuel : nat) :
  forall (key : pyval) (t : dict),
  get_source_dependency_tree fuel cfg key = Ok t -> sound_result cfg fuel key t.
Proof.
  induction fuel as [|fuel IH]; intros key t H; [discriminate H|].
  apply resolve_sound_step; assumption.
Qed.


End Soundness.

(** X1. Whenever the resolver returns a tree for a well-formed
    configuration, the tree is the encoding of a typed dependency tree
    rooted at the requested key and no higher than the call depth, and the
    references below the key are well founded, with as many visits as the
    tree has entries. *)
Theorem resolver_success_is_well_founded
  (cfg : dict) (fuel : nat) (key : pyval) (t : dict) :
  wf_val (PDict cfg) ->
  get_source_dependency_tree fuel cfg key = Ok t ->
  exists dt : dtree,
    t = encode dt /\ key = PStr (dkey dt) /\ height dt <= fuel
    /\ visits cfg (dkey dt) (entries dt).
Proof. intros Hwf H. exact (resolve_sound cfg Hwf fuel key t H). Qed.

Lemma resolver_success_is_well_founded_witness :
  exists dt : dtree,
    scenario_tree = encode dt /\ PStr "m" = PStr (dkey dt) /\ height dt <= 2
    /\ visits scenario_config (dkey dt) (entries dt).
Proof.
  apply (resolver_success_is_well_founded scenario_config 2 (PStr "m") scenario_tree).
  - cbn. repeat split; repeat constructor; cbn; intuition discriminate.
  - reflexivity.
Defined.

(** X2. No cycle is detected: a definition whose first child reference is
    its own key exhausts every call depth, so the call ends in
    [RecursionError] however deep the stack. *)
Theorem self_reference_exhausts_the_stack
  (cfg : dict) (k : string) (c : source_class) (fuel : nat) :
  classify cfg k = Some c ->
  hd_error (class_children c) = Some k ->
  get_source_dependency_tree fuel cfg (PStr k) = Raise RecursionError.
Proof.
  intros Hclass Hfirst. induction fuel as [|fuel IH]; [reflexivity|].
  destruct c as [kind | l r | cs | o]; cbn in Hfirst.
  - discriminate Hfirst.
  - injection Hfirst as ->. rewrite (resolve_mapping _ _ _ _ _ Hclass), IH. reflexivity.
  - destruct cs as [|c cs]; [discriminate Hfirst|]. injection Hfirst as ->.
    rewrite (resolve_union _ _ _ _ Hclass). cbn [union_loop]. rewrite IH. reflexivity.
  - injection Hfirst as ->. rewrite (resolve_multi _ _ _ _ Hclass), IH. reflexivity.
Qed.

Lemma self_reference_exhausts_the_stack_witness :
  get_source_dependency_tree 1000 self_wrapped_config (PStr "w")
  = Raise RecursionError.
Proof.
  apply (self_reference_exhausts_the_stack self_wrapped_config "w" (CMulti "w") 1000);
    reflexivity.
Defined.

(** X3. A declared type that is neither a composite tag nor
    [union_directory] (any other string, or a value that is not a string)
    is rejected with the "Invalid source type" exception, without any
    recursion. *)
Theorem unknown_declared_type_is_rejected
  (cfg : dict) (k : string) (def : dict) (v : pyval) (fuel : nat) :
  dict_get cfg k = Some (PDict def) ->
  dict_get def "type" = Some v ->
  v <> PNone ->
  (forall ty, In ty ["mapping"; "union"; "multi"; "union_directory"] -> v <> PStr ty) ->
  get_source_dependency_tree (S fuel) cfg (PStr k) = Raise invalid_source_type.
Proof.
  intros Hdef Hty Hnone Hother.
  assert (Hneq : forall ty, In ty ["mapping"; "union"; "multi"; "union_directory"] ->
                            eq_str v ty = false).
  { intros ty Hin. destruct v; try reflexivity. cbn.
    apply String.eqb_neq. intros ->. exact (Hother ty Hin eq_refl). }
  cbn [get_source_dependency_tree lookup_source].
  rewrite (py_get_some _ _ _ Hdef). cbn [bind fst snd meth_get].
  rewrite (py_get_some _ _ _ Hty). cbn [bind].
  unfold is_complex, complex_sources. cbn [existsb].
  rewrite !Hneq by (cbn; tauto). cbn [orb negb].
  destruct v; try reflexivity. contradiction Hnone. reflexivity.
Qed.

Lemma unknown_declared_type_is_rejected_witness :
  get_source_dependency_tree 1 declared_file_config (PStr "a")
  = Raise invalid_source_type.
Proof.
  apply (unknown_declared_type_is_rejected declared_file_config "a"
           [("type", PStr "file")] (PStr "file") 0 eq_refl eq_refl).
  - discriminate.
  - cbn. intros ty [<- | [<- | [<- | [<- | []]]]]; discriminate.
Defined.

(** X4. A union without a [sources] field fails on the subscript, with the
    [KeyError] of the missing field and not with a config exception. *)
Theorem union_without_sources_raises_KeyError
  (cfg : dict) (k : string) (def : dict) (fuel : nat) :
  dict_get cfg k = Some (PDict def) ->
  dict_get def "type" = Some (PStr "union") ->
  dict_get def "sources" = None ->
  get_source_dependency_tree (S fuel) cfg (PStr k) = Raise (KeyError "sources").
Proof.
  intros Hdef Hty Hsrc.
  cbn [get_source_dependency_tree lookup_source].
  rewrite (py_get_some _ _ _ Hdef). cbn [bind fst snd meth_get].
  rewrite (py_get_some _ _ _ Hty). cbn. rewrite Hsrc. reflexivity.
Qed.

Lemma union_without_sources_raises_KeyError_witness :
  get_source_dependency_tree 1 sourceless_union_config (PStr "u")
  = Raise (KeyError "sources").
Proof.
  apply (union_without_sources_raises_KeyError sourceless_union_config "u"
           [("type", PStr "union")] 0); reflexivity.
Defined.

(* ================================================================= *)
(** ** More on the builder *)

(** X5. A leaf whose tag is not one of the three known kinds makes the
    builder raise the "Leaf level sources" exception, whatever else the
    tree, the chart and the parent are. *)
Theorem unknown_leaf_tag_is_rejected
  (fuel : nat) (st : build_state) (k tag : string) (rest : dict)
  (parent : option Node) (map_right : bool) :
  ~ In tag ["file"; "sql"; "union_directory"] ->
  build_source_dependency_chart (S fuel) st (PDict ((k, PStr tag) :: rest))
    parent map_right
  = Raise leaf_type_error.
Proof.
  intros Htag.
  cbn [build_source_dependency_chart meth_keys meth_get bind dict_keys map fst snd].
  unfold py_get. rewrite dict_get_head.
  assert (Hmap : dict_get leaf_node_map tag = None).
  { unfold leaf_node_map. cbn [dict_get].
    destruct (String.eqb "file" tag) eqn:E1;
      [apply String.eqb_eq in E1; exfalso; apply Htag; cbn; auto|].
    destruct (String.eqb "sql" tag) eqn:E2;
      [apply String.eqb_eq in E2; exfalso; apply Htag; cbn; auto|].
    destruct (String.eqb "union_directory" tag) eqn:E3;
      [apply String.eqb_eq in E3; exfalso; apply Htag; cbn; auto|].
    reflexivity. }
  rewrite Hmap. reflexivity.
Qed.

Lemma unknown_leaf_tag_is_rejected_witness :
  build_source_dependency_chart 1 (id_iter_start, empty_flowchart)
    (PDict [("a", PStr "bogus")]) None false
  = Raise leaf_type_error.
Proof.
  apply (unknown_leaf_tag_is_rejected 0 (id_iter_start, empty_flowchart) "a" "bogus" []).
  cbn. intros [H | [H | [H | []]]]; discriminate H.
Defined.

(** X6. A composite nest that holds none of the keys [mapping], [union],
    [multi] makes the builder raise the "Dependency dict error" exception. *)
Theorem untagged_composite_is_rejected
  (fuel : nat) (st : build_state) (k : string) (nest rest : dict)
  (parent : option Node) (map_right : bool) :
  dict_get nest "mapping" = None ->
  dict_get nest "union" = None ->
  dict_get nest "multi" = None ->
  build_source_dependency_chart (S fuel) st (PDict ((k, PDict nest) :: rest))
    parent map_right
  = Raise dependency_dict_error.
Proof.
  intros Hmap Huni Hmul.
  cbn [build_source_dependency_chart meth_keys meth_get bind dict_keys map fst snd].
  unfold py_get at 1. rewrite dict_get_head.
  unfold dict_mem. rewrite Hmap, Huni, Hmul. reflexivity.
Qed.

Lemma untagged_composite_is_rejected_witness :
  build_source_dependency_chart 1 (id_iter_start, empty_flowchart)
    (PDict [("a", PDict [])]) None false
  = Raise dependency_dict_error.
Proof.
  apply (untagged_composite_is_rejected 0 (id_iter_start, empty_flowchart) "a" [] []);
    reflexivity.
Defined.

(** X7. Only the first key of the dependency tree is read: further root
    keys change nothing, neither the chart nor an exception. *)
Theorem further_root_keys_are_ignored
  (fuel : nat) (st : build_state) (k : string) (v : pyval) (rest : dict)
  (parent : option Node) (map_right : bool) :
  build_source_dependency_chart fuel st (PDict ((k, v) :: rest)) parent map_right
  = build_source_dependency_chart fuel st (PDict [(k, v)]) parent map_right.
Proof.
  destruct fuel as [|fuel]; [reflexivity|].
  assert (Hfirst : forall d, py_get ((k, v) :: d) k = v).
  { intros d. unfold py_get. rewrite dict_get_head. reflexivity. }
  cbn [build_source_dependency_chart meth_keys meth_get bind dict_keys map fst snd].
  rewrite !Hfirst. reflexivity.
Qed.

(* ================================================================= *)
(** ** The shape of the chart a tree gives *)

(** Induction on typed trees, with the children of a union at hand. *)
Lemma dtree_induction (P : dtree -> Prop) :
  (forall k kind, P (DLeaf k kind)) ->
  (forall k l r, P l -> P r -> P (DMapping k l r)) ->
  (forall k cs, Forall P cs -> P (DUnion k cs)) ->
  (forall k o, P o -> P (DMulti k o)) ->
  forall t, P t.
Proof.
  intros Hleaf Hmap Huni Hmul.
  fix IH 1. intros [k kind | k l r | k cs | k o].
  - apply Hleaf.
  - apply Hmap; apply IH.
  - apply Huni. induction cs as [|c cs IHcs]; constructor; [apply IH | exact IHcs].
  - apply Hmul, IH.
Qed.





(** The ids of a tree's nodes are the counter values from [id] on. *)
Lemma forest_node_ids (cs : list dtree) :
  Forall (fun c => forall id,
            node_ids (tree_nodes c id) = map str_of_nat (seq id (entries c))) cs ->
  forall id, node_ids (forest tree_nodes cs id)
             = map str_of_nat (seq id (list_sum (map entries cs))).
Proof.
  unfold node_ids.
  induction 1 as [|c cs Hc _ IH]; intros id; cbn [forest map]; [reflexivity|].
  unfold list_sum. cbn [fold_right]. fold (list_sum (map entries cs)).
  rewrite map_app, Hc, IH, seq_app, map_app.
  replace (entries c + id) with (id + entries c) by lia. reflexivity.
Qed.

Lemma tree_node_ids (t : dtree) :
  forall id, node_ids (tree_nodes t id) = map str_of_nat (seq id (entries t)).
Proof.
  induction t as [k kind | k l r IHl IHr | k cs IHcs | k o IHo] using dtree_induction;
    intros id; unfold node_ids in *;
    cbn [tree_nodes entries map seq tree_node node_id dkey]; f_equal.
  - rewrite map_app, IHl, IHr, seq_app, map_app.
    replace (entries l + S id) with (S id + entries l) by lia. reflexivity.
  - apply (forest_node_ids cs IHcs).
  - apply IHo.
Qed.


Lemma rstrip_uint (d : Decimal.uint) :
  rstrip (NilEmpty.string_of_uint d) = NilEmpty.string_of_uint d.
Proof. induction d; cbn; try rewrite IHd; reflexivity. Qed.

Lemma str_of_nat_nonempty (n : nat) : str_is_empty (str_of_nat n) = false.
Proof.
  unfold str_of_nat. destruct (Nat.to_uint n) eqn:E; try reflexivity.
  pose proof (DecimalNat.Unsigned.of_to n) as H. rewrite E in H. cbn in H.
  subst n. discriminate E.
Qed.

Lemma strip_edge_code (from sty : string) (j : nat) :
  strip (nl ++ from ++ " " ++ sty ++ str_of_nat j)
  = nl ++ from ++ " " ++ sty ++ str_of_nat j.
Proof.
  unfold strip.
  change (lstrip (nl ++ from ++ " " ++ sty ++ str_of_nat j))
    with (nl ++ from ++ " " ++ sty ++ str_of_nat j).
  repeat rewrite <- append_assoc.
  apply rstrip_nonblank_tail; [apply rstrip_uint | apply str_of_nat_nonempty].
Qed.

(** Where an element of a forest's list comes from. *)
Lemma forest_in {A : Type} (per_tree : dtree -> nat -> list A) (cs : list dtree) (x : A) :
  forall id, In x (forest per_tree cs id) ->
  exists c id', In c cs /\ In x (per_tree c id')
                /\ incl (tree_nodes c id') (forest tree_nodes cs id).
Proof.
  induction cs as [|c cs IH]; intros id Hin; cbn [forest] in Hin; [contradiction|].
  apply in_app_or in Hin. destruct Hin as [Hin | Hin].
  - exists c, id. split; [left; reflexivity|]. split; [exact Hin|].
    cbn [forest]. apply incl_appl, incl_refl.
  - destruct (IH _ Hin) as (c' & id' & Hc & Hx & Hincl).
    exists c', id'. split; [right; exact Hc|]. split; [exact Hx|].
    cbn [forest]. apply incl_appr, Hincl.
Qed.

Lemma node_ids_incl (a b : list Node) (x : string) :
  incl a b -> In x (node_ids a) -> In x (node_ids b).
Proof.
  unfold node_ids. intros Hincl Hin. apply in_map_iff in Hin.
  destruct Hin as (n & <- & Hn). apply in_map, Hincl, Hn.
Qed.

(** Every edge of a tree starts at a node of the tree and ends at the
    parent given from outside or at a node of the tree. *)
Lemma tree_edges_endpoints (t : dtree) :
  forall id p b e,
  In e (tree_edges t id (Some p) b) ->
  In (edge_from e) (node_ids (tree_nodes t id))
  /\ (edge_to e = node_id p \/ In (edge_to e) (node_ids (tree_nodes t id))).
Proof.
  assert (Hchild : forall (sub all : list Node) (me : Node) (e : edge),
             incl sub all -> In me all ->
             In (edge_from e) (node_ids sub)
             /\ (edge_to e = node_id me \/ In (edge_to e) (node_ids sub)) ->
             forall p, In (edge_from e) (node_ids all)
                       /\ (edge_to e = node_id p \/ In (edge_to e) (node_ids all))).
  { intros sub all me e Hincl Hme [Hfrom Hto] p. split.
    - apply (node_ids_incl sub); assumption.
    - right. destruct Hto as [-> | Hto].
      + apply in_map, Hme.
      + apply (node_ids_incl sub); assumption. }
  induction t as [k kind | k l r IHl IHr | k cs IHcs | k o IHo] using dtree_induction;
    intros id p b e Hin; cbn [tree_edges own_edge app] in Hin;
    (destruct Hin as [<- | Hin];
     [split; [left; reflexivity | left; reflexivity]|]).
  - contradiction.
  - apply in_app_or in Hin. destruct Hin as [Hin | Hin].
    + apply (Hchild (tree_nodes l (S id)) _ (tree_node (DMapping k l r) id));
        [ | left; reflexivity | apply (IHl _ _ _ _ Hin)].
      cbn [tree_nodes]. apply incl_tl, incl_appl, incl_refl.
    + apply (Hchild (tree_nodes r (entries l + S id)) _ (tree_node (DMapping k l r) id));
        [ | left; reflexivity | apply (IHr _ _ _ _ Hin)].
      cbn [tree_nodes]. apply incl_tl, incl_appr, incl_refl.
  - apply forest_in in Hin. destruct Hin as (c & id' & Hc & Hin & Hincl).
    rewrite Forall_forall in IHcs.
    apply (Hchild (tree_nodes c id') _ (tree_node (DUnion k cs) id));
      [ | left; reflexivity | apply (IHcs c Hc _ _ _ _ Hin)].
    cbn [tree_nodes]. apply incl_tl, Hincl.
  - apply (Hchild (tree_nodes o (S id)) _ (tree_node (DMulti k o) id));
      [ | left; reflexivity | apply (IHo _ _ _ _ Hin)].
    cbn [tree_nodes]. apply incl_tl, incl_refl.
Qed.

Lemma root_edges_endpoints (t : dtree) (id : nat) (b : branch) (e : edge) :
  In e (tree_edges t id None b) ->
  In (edge_from e) (node_ids (tree_nodes t id))
  /\ In (edge_to e) (node_ids (tree_nodes t id)).
Proof.
  assert (Hclose : forall sub me,
             incl sub (tree_nodes t id) -> In me (tree_nodes t id) ->
             In (edge_from e) (node_ids sub)
             /\ (edge_to e = node_id me \/ In (edge_to e) (node_ids sub)) ->
             In (edge_from e) (node_ids (tree_nodes t id))
             /\ In (edge_to e) (node_ids (tree_nodes t id))).
  { intros sub me Hincl Hme [Hfrom Hto]. split.
    - apply (node_ids_incl sub); assumption.
    - destruct Hto as [-> | Hto]; [apply in_map, Hme|].
      apply (node_ids_incl sub); assumption. }
  destruct t as [k kind | k l r | k cs | k o];
    cbn [tree_edges own_edge app]; intros Hin.
  - contradiction.
  - apply in_app_or in Hin. destruct Hin as [Hin | Hin];
      apply tree_edges_endpoints in Hin;
      (eapply Hclose; [ | | exact Hin]; [|left; reflexivity]);
      cbn [tree_nodes].
    + apply incl_tl, incl_appl, incl_refl.
    + apply incl_tl, incl_appr, incl_refl.
  - apply forest_in in Hin. destruct Hin as (c & id' & Hc & Hin & Hincl).
    apply tree_edges_endpoints in Hin.
    eapply Hclose; [ | | exact Hin]; [|left; reflexivity].
    cbn [tree_nodes]. apply incl_tl, Hincl.
  - apply tree_edges_endpoints in Hin.
    eapply Hclose; [ | | exact Hin]; [|left; reflexivity].
    cbn [tree_nodes]. apply incl_tl, incl_refl.
Qed.

Lemma forest_nodes_in (cs : list dtree) (n : Node) :
  forall id, In n (forest tree_nodes cs id) ->
  exists c id', In c cs /\ In n (tree_nodes c id').
Proof.
  intros id Hin. destruct (forest_in tree_nodes cs n id Hin) as (c & id' & Hc & Hn & _).
  exists c, id'. split; assumption.
Qed.

(** The nodes of a tree carry no style and one of the four builder shapes,
    so their definition lines end in a delimiter. *)
Lemma tree_nodes_block (t : dtree) :
  forall id n, In n (tree_nodes t id) -> node_block n = node_line n.
Proof.
  assert (Hroot : forall t id, node_block (tree_node t id) = node_line (tree_node t id)).
  { intros t0 id. unfold node_block, node_line, get_node_code, shape_midpoint.
    destruct t0 as [k [| |] | k l r | k cs | k o];
      cbn [tree_node style shape label node_id leaf_shape combined_shape dkey
           String.length Nat.div2 str_take str_drop];
      rewrite strip_node_line by reflexivity; rewrite append_empty_r; reflexivity. }
  induction t as [k kind | k l r IHl IHr | k cs IHcs | k o IHo] using dtree_induction;
    intros id n Hin; cbn [tree_nodes] in Hin;
    (destruct Hin as [<- | Hin]; [apply Hroot|]).
  - contradiction.
  - apply in_app_or in Hin. destruct Hin as [Hin | Hin]; [eapply IHl | eapply IHr]; eassumption.
  - apply forest_nodes_in in Hin. destruct Hin as (c & id' & Hc & Hin).
    rewrite Forall_forall in IHcs. eapply IHcs; eassumption.
  - eapply IHo; eassumption.
Qed.

Lemma root_edges_strip (t : dtree) (id : nat) (e : edge) :
  In e (tree_edges t id None Root) -> strip (edge_code e) = edge_code e.
Proof.
  intros Hin. apply root_edges_endpoints in Hin. destruct Hin as [_ Hto].
  rewrite tree_node_ids in Hto. apply in_map_iff in Hto.
  destruct Hto as (j & Hj & _). unfold edge_code. rewrite <- Hj.
  apply strip_edge_code.
Qed.

Lemma map_ext_in_str {A : Type} (f g : A -> string) (l : list A) :
  (forall x, In x l -> f x = g x) -> map f l = map g l.
Proof. apply map_ext_in. Qed.

(** The markup of a chart that holds one tree and nothing else. *)
Lemma tree_markup (t : dtree) (id : nat) :
  to_mermaid (chart_with empty_flowchart (tree_nodes t id) (tree_edges t id None Root))
  = tree_markup_text t id.
Proof.
  unfold to_mermaid, tree_markup_text, chart_with.
  cbn [orientation nodes paths clicks hrefs empty_flowchart new_flowchart app
       dict_values map fold_left].
  rewrite fold_emit_line, fold_emit_node, map_map.
  rewrite (map_ext_in_str node_block node_line) by apply tree_nodes_block.
  rewrite (map_ext_in_str (fun e => strip (edge_code e)) edge_code)
    by apply root_edges_strip.
  apply append_assoc.
Qed.






(** X10. No edge dangles: every edge the builder adds for a tree runs
    between two nodes it added for that tree. *)
Theorem builder_edges_join_its_nodes
  (t : dtree) (fuel id : nat) (chart : Flowchart) :
  height t <= fuel ->
  exists (st' : build_state) (created : list Node) (drawn : list edge),
    build_source_dependency_chart fuel (id, chart) (PDict (encode t)) None false
    = Ok st'
    /\ nodes (snd st') = (nodes chart ++ created)%list
    /\ paths (snd st') = (paths chart ++ map edge_code drawn)%list
    /\ forall e, In e drawn ->
         In (edge_from e) (node_ids created) /\ In (edge_to e) (node_ids created).
Proof.
  intros Hfuel.
  exists (entries t + id, chart_with chart (tree_nodes t id) (tree_edges t id None Root)),
         (tree_nodes t id), (tree_edges t id None Root).
  split; [exact (build_tree fuel t id chart None Root Hfuel)|].
  split; [reflexivity|]. split; [reflexivity|].
  intros e. apply root_edges_endpoints.
Qed.

Lemma builder_edges_join_its_nodes_witness :
  exists (st' : build_state) (created : list Node) (drawn : list edge),
    build_source_dependency_chart 2 (id_iter_start, empty_flowchart)
      (PDict (encode scenario_dtree)) None false
    = Ok st'
    /\ nodes (snd st') = created
    /\ paths (snd st') = map edge_code drawn
    /\ forall e, In e drawn ->
         In (edge_from e) (node_ids created) /\ In (edge_to e) (node_ids created).
Proof.
  apply (builder_edges_join_its_nodes scenario_dtree 2 id_iter_start empty_flowchart
           (le_n 2)).
Defined.

Lemma tree_nodes_unstyled (t : dtree) :
  forall id n, In n (tree_nodes t id) -> style n = None.
Proof.
  induction t as [k kind | k l r IHl IHr | k cs IHcs | k o IHo] using dtree_induction;
    intros id n Hin; cbn [tree_nodes] in Hin;
    (destruct Hin as [<- | Hin]; [reflexivity|]).
  - contradiction.
  - apply in_app_or in Hin. destruct Hin as [Hin | Hin]; [eapply IHl | eapply IHr]; eassumption.
  - apply forest_nodes_in in Hin. destruct Hin as (c & id' & Hc & Hin).
    rewrite Forall_forall in IHcs. eapply IHcs; eassumption.
  - eapply IHo; eassumption.
Qed.

Lemma tree_recorded_layout (t : dtree) (id : nat) :
  recorded_layout
    (chart_with empty_flowchart (tree_nodes t id) (tree_edges t id None Root))
  = tree_markup_text t id.
Proof.
  unfold recorded_layout, tree_markup_text, chart_with.
  cbn [orientation nodes paths clicks hrefs empty_flowchart new_flowchart app
       dict_values map].
  rewrite (map_ext_in_str recorded_block node_line).
  - cbn [str_concat fold_right]. rewrite !append_empty_r. reflexivity.
  - intros n Hn. unfold recorded_block.
    rewrite (tree_nodes_unstyled t id n Hn). apply append_empty_r.
Qed.

(** X11. For a tree built on a fresh chart the markup is the header, the
    node lines and the edge lines exactly as recorded: cutting blanks
    changes none of them, whatever the source keys are. *)
Theorem built_markup_is_exact (t : dtree) (fuel id : nat) :
  height t <= fuel ->
  exists st' : build_state,
    build_source_dependency_chart fuel (id, empty_flowchart) (PDict (encode t))
      None false = Ok st'
    /\ to_mermaid (snd st')
       = "graph TD" ++ str_concat (map node_line (tree_nodes t id))
                    ++ str_concat (map edge_code (tree_edges t id None Root))
    /\ to_mermaid (snd st') = recorded_layout (snd st').
Proof.
  intros Hfuel. eexists. split; [exact (build_tree fuel t id _ None Root Hfuel)|].
  cbn [snd]. rewrite tree_markup, tree_recorded_layout. split; reflexivity.
Qed.

Lemma built_markup_is_exact_witness :
  exists st' : build_state,
    build_source_dependency_chart 2 (id_iter_start, empty_flowchart)
      (PDict (encode scenario_dtree)) None false = Ok st'
    /\ to_mermaid (snd st')
       = "graph TD" ++ str_concat (map node_line (tree_nodes scenario_dtree id_iter_start))
           ++ str_concat (map edge_code (tree_edges scenario_dtree id_iter_start None Root))
    /\ to_mermaid (snd st') = recorded_layout (snd st').
Proof.
  apply (built_markup_is_exact scenario_dtree 2 id_iter_start (le_n 2)).
Defined.

(** X12. The pipeline never fails after the resolver: for a well-formed
    configuration, whenever [get_source_dependency_tree] returns a tree,
    [get_source_mermaid] at the same call depth returns the markup of that
    tree, so none of the builder's exceptions can be raised. *)
Theorem pipeline_succeeds_after_resolver
  (cfg : dict) (fuel id : nat) (key : pyval) (t : dict) :
  wf_val (PDict cfg) ->
  get_source_dependency_tree fuel cfg key = Ok t ->
  exists dt : dtree,
    t = encode dt
    /\ get_source_mermaid fuel id cfg key = Ok (tree_markup_text dt id).
Proof.
  intros Hwf H. destruct (resolve_sound cfg Hwf fuel key t H) as (dt & -> & _ & Hh & _).
  exists dt. split; [reflexivity|].
  unfold get_source_mermaid. rewrite H. cbn [bind].
  pose proof (build_tree fuel dt id empty_flowchart None Root Hh) as Hbuild.
  cbn [is_mapping_right] in Hbuild. rewrite Hbuild. cbn [bind snd].
  rewrite tree_markup. reflexivity.
Qed.

Lemma pipeline_succeeds_after_resolver_witness :
  exists dt : dtree,
    scenario_tree = encode dt
    /\ get_source_mermaid 2 id_iter_start scenario_config (PStr "m")
       = Ok (tree_markup_text dt id_iter_start).
Proof.
  apply (pipeline_succeeds_after_resolver scenario_config 2 id_iter_start (PStr "m")
           scenario_tree).
  - cbn. repeat split; repeat constructor; cbn; intuition discriminate.
  - reflexivity.
Defined.

(* ================================================================= *)
(** ** More on Node and Flowchart *)

Lemma comma_ended_app (a b : string) : comma_ended b -> comma_ended (a ++ b).
Proof.
  intros [body ->]. exists (a ++ body). symmetry. apply append_assoc.
Qed.

Lemma blank_or_comma_app (a b : string) :
  a = EmptyString \/ comma_ended a ->
  b = EmptyString \/ comma_ended b ->
  a ++ b = EmptyString \/ comma_ended (a ++ b).
Proof.
  intros Ha [-> | Hb].
  - rewrite append_empty_r. exact Ha.
  - right. apply comma_ended_app, Hb.
Qed.

Lemma opt_fragment_shape {A : Type} (frag : A -> string) (o : option A) :
  (forall v, comma_ended (frag v)) ->
  opt_fragment frag o = EmptyString \/ comma_ended (opt_fragment frag o).
Proof. intros H. destruct o; cbn; [right; apply H | left; reflexivity]. Qed.

Lemma style_fragments_shape (fill stroke : option string)
  (stroke_width : option Z) (stroke_dasharray : option (list Z)) :
  style_fragments fill stroke stroke_width stroke_dasharray = EmptyString
  \/ comma_ended (style_fragments fill stroke stroke_width stroke_dasharray).
Proof.
  unfold style_fragments.
  repeat apply blank_or_comma_app; apply opt_fragment_shape; intros v.
  - exists (" fill:" ++ v). unfold fill_fragment. rewrite append_assoc. reflexivity.
  - exists (" stroke:" ++ v). unfold stroke_fragment. rewrite append_assoc. reflexivity.
  - exists (" stroke-width:" ++ str_of_Z v ++ "px"). unfold stroke_width_fragment.
    rewrite !append_assoc. reflexivity.
  - exists (" stroke-dasharray: " ++ join " " (map str_of_Z v)).
    unfold stroke_dasharray_fragment. rewrite append_assoc. reflexivity.
Qed.

(** X13. When at least one argument of [set_style] is truthy, the style is
    ["style <id>"] with the whole node id, followed by the fragments of the
    truthy arguments, the last comma alone being cut. *)
Theorem set_style_keeps_the_id_when_styled
  (n : Node) (fill stroke : option string)
  (stroke_width : option Z) (stroke_dasharray : option (list Z)) :
  truthy_str fill <> None \/ truthy_str stroke <> None
  \/ truthy_int stroke_width <> None \/ truthy_list stroke_dasharray <> None ->
  exists body : string,
    style_fragments fill stroke stroke_width stroke_dasharray = body ++ ","
    /\ style (set_style n fill stroke stroke_width stroke_dasharray)
       = Some ("style " ++ node_id n ++ body).
Proof.
  intros Hsome.
  destruct (style_fragments_shape fill stroke stroke_width stroke_dasharray)
    as [Hblank | [body Hbody]].
  - exfalso. unfold style_fragments, opt_fragment in Hblank.
    destruct (truthy_str fill), (truthy_str stroke), (truthy_int stroke_width),
      (truthy_list stroke_dasharray); try discriminate Hblank.
    destruct Hsome as [H | [H | [H | H]]]; apply H; reflexivity.
  - exists body. split; [exact Hbody|].
    rewrite set_style_fragments, Hbody.
    rewrite <- (append_assoc (node_id n)), <- (append_assoc "style ").
    rewrite drop_last_comma. reflexivity.
Qed.

Lemma set_style_keeps_the_id_when_styled_witness :
  exists body : string,
    style_fragments (Some "#f9f") None (Some 4%Z) (Some [5%Z; 5%Z]) = body ++ ","
    /\ style (set_style first_node (Some "#f9f") None (Some 4%Z) (Some [5%Z; 5%Z]))
       = Some ("style " ++ node_id first_node ++ body).
Proof.
  apply (set_style_keeps_the_id_when_styled first_node (Some "#f9f") None (Some 4%Z)
           (Some [5%Z; 5%Z])).
  left. discriminate.
Defined.

Example styled_node_example :
  style (set_style first_node (Some "#f9f") None (Some 4%Z) (Some [5%Z; 5%Z]))
  = Some "style 100 fill:#f9f, stroke-width:4px, stroke-dasharray: 5 5".
Proof. vm_compute. reflexivity. Qed.

Lemma dict_get_in_values {V : Type} (d : alist V) (k : string) (v : V) :
  dict_get d k = Some v -> In v (dict_values d).
Proof.
  induction d as [|[k' v'] d IH]; cbn; [discriminate|].
  destruct (String.eqb k' k); [intros [= <-]; left; reflexivity | right; apply IH, H].
Qed.

Lemma in_values_true (s : string) : In s (dict_values shape_map) -> in_values s = true.
Proof.
  intros H. unfold in_values. apply existsb_exists. exists s.
  split; [exact H | apply String.eqb_refl].
Qed.

(** X14. The two shape setters reach the same shapes: a shape set by name
    is accepted again by [set_shape_raw], which leaves the node as it is,
    and every shape [set_shape_raw] accepts can be set by some name. *)
Theorem shape_setters_agree (n n' : Node) (name s : string) :
  (set_shape n name = Ok n' -> set_shape_raw n' (shape n') = Ok n')
  /\ (set_shape_raw n s = Ok n' -> exists name', set_shape n name' = Ok n').
Proof.
  split.
  - unfold set_shape. destruct (dict_get shape_map name) as [shp|] eqn:E; [|discriminate].
    intros [= <-]. unfold set_shape_raw. cbn [shape with_shape].
    rewrite (in_values_true shp (dict_get_in_values _ _ _ E)). reflexivity.
  - unfold set_shape_raw. destruct (in_values s) eqn:E; cbn [negb]; [|discriminate].
    intros [= <-]. unfold in_values in E. apply existsb_exists in E.
    destruct E as (x & Hx & Heq). apply String.eqb_eq in Heq. subst x.
    cbn in Hx.
    repeat (destruct Hx as [<- | Hx];
            [match goal with
             | |- exists name', set_shape _ name' = Ok (with_shape _ ?shp) =>
                 first [ exists "rounded"; reflexivity | exists "stadium"; reflexivity
                       | exists "subroutine"; reflexivity | exists "cylinder"; reflexivity
                       | exists "circle"; reflexivity | exists "asymmetric"; reflexivity
                       | exists "rhombus"; reflexivity | exists "hexagon"; reflexivity
                       | exists "parallelogram"; reflexivity
                       | exists "parallelogram_alt"; reflexivity
                       | exists "trapezoid"; reflexivity
                       | exists "trapezoid_alt"; reflexivity ]
             end|]).
    contradiction.
Qed.

Lemma shape_setters_agree_witness :
  set_shape_raw (with_shape first_node "([])") "([])" = Ok (with_shape first_node "([])")
  /\ exists name', set_shape first_node name' = Ok (with_shape first_node "[\/]").
Proof.
  split.
  - apply (proj1 (shape_setters_agree first_node (with_shape first_node "([])")
                    "stadium" EmptyString)). reflexivity.
  - apply (proj2 (shape_setters_agree first_node (with_shape first_node "[\/]")
                    EmptyString "[\/]")). reflexivity.
Defined.

Lemma str_take_drop (k : nat) (s : string) : str_take k s ++ str_drop k s = s.
Proof.
  revert s. induction k as [|k IH]; intros s; [reflexivity|].
  destruct s as [|c s]; [reflexivity|]. cbn. rewrite IH. reflexivity.
Qed.

Lemma str_take_length (k : nat) (s : string) :
  k <= String.length s -> String.length (str_take k s) = k.
Proof.
  revert s. induction k as [|k IH]; intros s Hk; [reflexivity|].
  destruct s as [|c s]; cbn in *; [lia|]. rewrite IH; [reflexivity | lia].
Qed.

Lemma str_drop_length (k : nat) (s : string) :
  String.length (str_drop k s) = String.length s - k.
Proof.
  revert s. induction k as [|k IH]; intros s; cbn; [lia|].
  destruct s as [|c s]; cbn; [reflexivity | apply IH].
Qed.

Lemma div2_halves (n : nat) : Nat.div2 n <= n - Nat.div2 n <= S (Nat.div2 n).
Proof.
  pose proof (Nat.div2_odd n) as H. destruct (Nat.odd n); cbn [Nat.b2n] in H; lia.
Qed.

(** X15. The node code keeps the whole shape: the label sits between two
    parts whose concatenation is the shape, and whose lengths differ by at
    most one, the closing part taking the middle character of a shape of
    odd length. *)
Theorem node_code_splits_the_shape (n : Node) :
  exists opening closing : string,
    get_node_code n = nl ++ node_id n ++ opening ++ label n ++ closing
    /\ opening ++ closing = shape n
    /\ String.length opening <= String.length closing <= S (String.length opening).
Proof.
  exists (str_take (shape_midpoint n) (shape n)), (str_drop (shape_midpoint n) (shape n)).
  split; [reflexivity|]. split; [apply str_take_drop|].
  unfold shape_midpoint. pose proof (div2_halves (String.length (shape n))) as H.
  rewrite str_drop_length, str_take_length; [exact H | lia].
Qed.

Lemma dict_set_twice {V : Type} (d : alist V) (k : string) (a b : V) :
  dict_set (dict_set d k a) k b = dict_set d k b.
Proof.
  induction d as [|[k' v'] d IH]; cbn.
  - rewrite String.eqb_refl. reflexivity.
  - destruct (String.eqb k' k) eqn:E; cbn; rewrite E; [reflexivity|].
    rewrite IH. reflexivity.
Qed.

Lemma dict_get_set {V : Type} (d : alist V) (k : string) (v : V) :
  dict_get (dict_set d k v) k = Some v.
Proof.
  induction d as [|[k' v'] d IH]; cbn.
  - rewrite String.eqb_refl. reflexivity.
  - destruct (String.eqb k' k) eqn:E; cbn; rewrite E; [reflexivity | exact IH].
Qed.

Lemma dict_get_set_other {V : Type} (d : alist V) (k k' : string) (v : V) :
  k <> k' -> dict_get (dict_set d k v) k' = dict_get d k'.
Proof.
  intros Hne. induction d as [|[k0 v0] d IH]; cbn.
  - apply String.eqb_neq in Hne. rewrite Hne. reflexivity.
  - destruct (String.eqb k0 k) eqn:E; cbn.
    + apply String.eqb_eq in E. subst k0.
      apply String.eqb_neq in Hne. rewrite Hne. reflexivity.
    + rewrite IH. reflexivity.
Qed.

Lemma dict_set_keys_present {V : Type} (d : alist V) (k : string) (v : V) :
  In k (dict_keys d) -> dict_keys (dict_set d k v) = dict_keys d.
Proof.
  induction d as [|[k' v'] d IH]; cbn; [contradiction|].
  intros Hin. destruct (String.eqb k' k) eqn:E; cbn; [reflexivity|].
  f_equal. apply IH. destruct Hin as [-> | Hin]; [|exact Hin].
  rewrite String.eqb_refl in E. discriminate E.
Qed.

Lemma dict_set_keys_NoDup {V : Type} (d : alist V) (k : string) (v : V) :
  NoDup (dict_keys d) -> NoDup (dict_keys (dict_set d k v)).
Proof.
  intros Hnd. destruct (in_dec string_dec k (dict_keys d)) as [Hin | Hout].
  - rewrite dict_set_keys_present; assumption.
  - rewrite dict_set_fresh by assumption. unfold dict_keys in *.
    rewrite map_app. cbn. apply NoDup_app; [exact Hnd | repeat constructor; intros [] |].
    intros x Hx [<- | []]. exact (Hout Hx).
Qed.

(** X16. A second click directive for the same node replaces the first:
    adding twice gives the chart that the last call alone gives, the lookup
    for the node yields the last directive, and the directives of the other
    nodes are left as they were (both for href and for callback clicks). *)
Theorem click_is_overwritten
  (c : Flowchart) (n m : Node) (v1 t1 v2 t2 : string) :
  add_href_click (add_href_click c n v1 t1) n v2 t2 = add_href_click c n v2 t2
  /\ add_fn_click (add_fn_click c n v1 t1) n v2 t2 = add_fn_click c n v2 t2
  /\ (node_id m <> node_id n ->
      dict_get (hrefs (add_href_click c n v2 t2)) (node_id m)
      = dict_get (hrefs c) (node_id m)
      /\ dict_get (clicks (add_fn_click c n v2 t2)) (node_id m)
         = dict_get (clicks c) (node_id m))
  /\ (exists line, dict_get (hrefs (add_href_click c n v2 t2)) (node_id n) = Some line)
  /\ (exists line, dict_get (clicks (add_fn_click c n v2 t2)) (node_id n) = Some line).
Proof.
  split; [|split; [|split; [|split]]].
  - unfold add_href_click. cbn [orientation theme nodes paths hrefs clicks].
    rewrite dict_set_twice. reflexivity.
  - unfold add_fn_click. cbn [orientation theme nodes paths hrefs clicks].
    rewrite dict_set_twice. reflexivity.
  - intros Hne. unfold add_href_click, add_fn_click. cbn [hrefs clicks].
    split; apply dict_get_set_other; intros Heq; apply Hne; symmetry; exact Heq.
  - unfold add_href_click. cbn [hrefs]. eexists. apply dict_get_set.
  - unfold add_fn_click. cbn [clicks]. eexists. apply dict_get_set.
Qed.

Lemma click_is_overwritten_witness :
  dict_get (hrefs (add_href_click (add_href_click empty_flowchart first_node "a" "_blank")
                     first_node "b" "_blank")) "101"
  = dict_get (hrefs (add_href_click empty_flowchart first_node "a" "_blank")) "101".
Proof.
  pose proof (click_is_overwritten
                (add_href_click empty_flowchart first_node "a" "_blank")
                first_node (mkNode "x" "101" "[]" None) "a" "_blank" "b" "_blank") as H.
  apply (proj1 (proj1 (proj2 (proj2 H)) ltac:(discriminate))).
Defined.

(** X17. There is at most one click line per node and its place is that of
    the first call: the keys of the click dicts stay distinct, a repeated
    call leaves the order of the keys unchanged, and a call for a node
    without a directive puts the node last. *)
Theorem click_lines_keep_their_place
  (c : Flowchart) (n : Node) (v t : string) :
  (NoDup (dict_keys (hrefs c)) -> NoDup (dict_keys (hrefs (add_href_click c n v t))))
  /\ (NoDup (dict_keys (clicks c)) -> NoDup (dict_keys (clicks (add_fn_click c n v t))))
  /\ (In (node_id n) (dict_keys (hrefs c)) ->
      dict_keys (hrefs (add_href_click c n v t)) = dict_keys (hrefs c))
  /\ (In (node_id n) (dict_keys (clicks c)) ->
      dict_keys (clicks (add_fn_click c n v t)) = dict_keys (clicks c))
  /\ (~ In (node_id n) (dict_keys (hrefs c)) ->
      dict_keys (hrefs (add_href_click c n v t))
      = (dict_keys (hrefs c) ++ [node_id n])%list)
  /\ (~ In (node_id n) (dict_keys (clicks c)) ->
      dict_keys (clicks (add_fn_click c n v t))
      = (dict_keys (clicks c) ++ [node_id n])%list).
Proof.
  unfold add_href_click, add_fn_click. cbn [hrefs clicks].
  repeat split; intros H.
  - apply dict_set_keys_NoDup, H.
  - apply dict_set_keys_NoDup, H.
  - apply dict_set_keys_present, H.
  - apply dict_set_keys_present, H.
  - rewrite dict_set_fresh by exact H. unfold dict_keys. rewrite map_app. reflexivity.
  - rewrite dict_set_fresh by exact H. unfold dict_keys. rewrite map_app. reflexivity.
Qed.

Lemma click_lines_keep_their_place_witness :
  dict_keys (hrefs (add_href_click
                      (add_href_click
                         (add_href_click empty_flowchart first_node "a" "_blank")
                         (mkNode "x" "101" "[]" None) "b" "_blank")
                      first_node "c" "tip"))
  = ["100"; "101"].
Proof.
  apply (proj1 (proj2 (proj2 (click_lines_keep_their_place
           (add_href_click (add_href_click empty_flowchart first_node "a" "_blank")
              (mkNode "x" "101" "[]" None) "b" "_blank")
           first_node "c" "tip")))).
  cbn. left. reflexivity.
Defined.

(** X18. [add_nodes] is [add_node] once per node, in the order of the list. *)
Theorem add_nodes_is_repeated_add_node (c : Flowchart) (node_list : list Node) :
  add_nodes c node_list = fold_left add_node node_list c.
Proof.
  revert c. induction node_list as [|n l IH]; intros c.
  - destruct c; unfold add_nodes; cbn. rewrite app_nil_r. reflexivity.
  - cbn [fold_left]. rewrite <- IH. unfold add_nodes, add_node.
    cbn [orientation theme nodes paths hrefs clicks]. rewrite <- app_assoc. reflexivity.
Qed.

(** X19. The legend shows what the builder draws: after the four nodes of
    the shape legend, which carry the three leaf shapes and the composite
    shape and no edge, the path legend is the very chart the builder gives
    for the legend's mapping, union and multi trees in turn, and the twelve
    nodes take twelve consecutive ids. *)
Theorem legend_agrees_with_builder (next_id : nat) :
  let charts := get_source_mermaid_key_charts next_id in
  map shape (nodes (fst (fst charts)))
  = [leaf_shape File; leaf_shape Sql; leaf_shape UnionDirectory; combined_shape]
  /\ paths (fst (fst charts)) = []
  /\ node_ids (nodes (fst (fst charts))) = map str_of_nat (seq next_id 4)
  /\ build_all 2 (4 + next_id, empty_flowchart)
       [legend_mapping; legend_union; legend_multi]
     = Ok (snd charts, snd (fst charts))
  /\ snd charts = 12 + next_id.
Proof. cbv zeta. repeat split; reflexivity. Qed.

(* ================================================================= *)
(** ** Two more edge cases *)

(** X20. A definition without a declared type whose connection holds a
    config dict is a leaf resolved in one call: it is [file] exactly when
    the config has a [file_type] key, whatever the value of that key, and
    [sql] otherwise. *)
Theorem leaf_kind_is_inferred
  (cfg : dict) (k : string) (def connection config : dict) (fuel : nat) :
  dict_get cfg k = Some (PDict def) ->
  dict_get def "type" = None ->
  dict_get def "connection" = Some (PDict connection) ->
  dict_get connection "config" = Some (PDict config) ->
  get_source_dependency_tree (S fuel) cfg (PStr k)
  = Ok [(k, PStr (if dict_mem config "file_type" then "file" else "sql"))].
Proof.
  intros Hdef Hty Hconn Hcfg.
  rewrite (resolve_leaf cfg k (if dict_mem config "file_type" then File else Sql)).
  - destruct (dict_mem config "file_type"); reflexivity.
  - unfold classify, classify_undeclared. rewrite Hdef, Hty, Hconn, Hcfg. reflexivity.
Qed.

Lemma leaf_kind_is_inferred_witness :
  get_source_dependency_tree 1 null_file_type_config (PStr "a") = Ok [("a", PStr "file")].
Proof.
  apply (leaf_kind_is_inferred null_file_type_config "a"
           [("connection", PDict [("config", PDict [("file_type", PNone)])])]
           [("config", PDict [("file_type", PNone)])]
           [("file_type", PNone)] 0); reflexivity.
Defined.

(** X21. A mapping nest without a [right] entry is not reported as a
    malformed tree: once the left sub-tree has been drawn, the builder
    recurses on [None] and fails with [AttributeError]. *)
Theorem mapping_nest_without_right_raises_AttributeError
  (fuel : nat) (st : build_state) (k : string) (l : dtree)
  (parent : option Node) (map_right : bool) :
  height l <= fuel ->
  build_source_dependency_chart (S fuel) st
    (PDict [(k, PDict [("mapping", PDict [("left", PDict (encode l))])])])
    parent map_right
  = Raise (AttributeError "'NoneType' object has no attribute 'keys'").
Proof.
  intros Hfuel. destruct st as [id chart].
  cbn [build_source_dependency_chart meth_keys meth_get bind dict_keys map fst snd].
  unfold py_get at 1. rewrite dict_get_head.
  change (dict_mem [("mapping", PDict [("left", PDict (encode l))])] "mapping") with true.
  cbn iota.
  change (py_get [("mapping", PDict [("left", PDict (encode l))])] "mapping")
    with (PDict [("left", PDict (encode l))]).
  cbn [meth_get bind].
  change (py_get [("left", PDict (encode l))] "left") with (PDict (encode l)).
  change (py_get [("left", PDict (encode l))] "right") with PNone.
  pose proof (build_tree fuel l) as Hleft. cbn [new_node fst snd].
  specialize (Hleft (S id)
    (link_to_parent (add_node chart (mkNode k (str_of_nat id) combined_shape None))
       (mkNode k (str_of_nat id) combined_shape None) parent solid)
    (Some (mkNode k (str_of_nat id) combined_shape None)) MappingLeft Hfuel).
  cbn [is_mapping_right] in Hleft. rewrite Hleft. cbn [bind].
  destruct fuel as [|fuel]; [destruct l; cbn in Hfuel; lia|]. reflexivity.
Qed.

Lemma mapping_nest_without_right_raises_AttributeError_witness :
  build_source_dependency_chart 2 (id_iter_start, empty_flowchart)
    (PDict [("m", PDict [("mapping", PDict [("left", PDict (encode (DLeaf "l" File)))])])])
    None false
  = Raise (AttributeError "'NoneType' object has no attribute 'keys'").
Proof.
  apply (mapping_nest_without_right_raises_AttributeError 1
           (id_iter_start, empty_flowchart) "m" (DLeaf "l" File) None false (le_n 1)).
Defined.
